(** * Return-series provider and instrument page of the VaR calculator

    Shallow embedding of
      - [lib/financial-data] ([parseCsvData], [calculateDailyReturns],
        [getHistoricalData]), and
      - the page component [VarModelPage] ([addInstrument],
        [removeInstrument], [toggleInstrument], [runCalculation]).

    JavaScript numbers are IEEE-754 binary64 values: they are modelled by
    Rocq's primitive floats, so that NaN, the infinities and signed zeros
    behave as they do in the program. *)

Set Warnings "-inexact-float".

From Stdlib Require Import ZArith Ascii String PrimFloat SpecFloat FloatOps.
From Stdlib Require Import FloatAxioms.
From Stdlib Require Import Sorting.Sorted Permutation.
From stdpp Require Import gmap strings list fin_maps.

Local Open Scope string_scope.
Local Open Scope list_scope.

(** ** The JavaScript runtime the program relies on *)

Module JS.

(** *** Numbers *)

Definition number := float.

(** [x === y] on numbers: IEEE equality ([NaN] differs from itself, the
    two zeros are equal). *)
Definition strict_eq (x y : number) : bool := PrimFloat.eqb x y.

Definition isNaN (x : number) : bool := PrimFloat.is_nan x.

Definition isFinite (x : number) : bool :=
  negb (PrimFloat.is_nan x) && negb (PrimFloat.is_infinity x).

(** *** Strings

    Strings are the UTF-8 bytes of the text.  The separators the program
    splits on are ASCII, and no byte of a multi-byte sequence is ASCII, so
    splitting bytes and splitting code units agree. *)

(** [s.split(sep)] for a one-character separator: never the empty list. *)
Fixpoint split (sep : ascii) (s : string) : list string :=
  match s with
  | EmptyString => [EmptyString]
  | String c s' =>
      if Ascii.eqb c sep then EmptyString :: split sep s'
      else match split sep s' with
           | h :: t => String c h :: t
           | [] => [String c EmptyString]
           end
  end.

(** [parts.join(sep)]. *)
Fixpoint join (sep : ascii) (parts : list string) : string :=
  match parts with
  | [] => EmptyString
  | [p] => p
  | p :: rest => p +:+ String sep (join sep rest)
  end.

Definition LF : ascii := "010"%char.
Definition COMMA : ascii := ","%char.

(** Truthiness of a destructured array element: [undefined] (no such
    element) and the empty string are falsy, every other string truthy. *)
Definition falsy (x : option string) : bool :=
  match x with
  | None => true
  | Some EmptyString => true
  | Some (String _ _) => false
  end.

(** *** parseFloat

    ECMAScript [parseFloat]: leading white space is trimmed, then the
    longest prefix that is a [StrDecimalLiteral] is converted, rounding to
    the nearest binary64 value (ties to even); [NaN] when there is no such
    prefix. *)

Definition is_digit (c : ascii) : bool :=
  let n := nat_of_ascii c in (48 <=? n)%nat && (n <=? 57)%nat.

Definition digit_val (c : ascii) : Z := Z.of_nat (nat_of_ascii c) - 48.

(** ASCII white space and line terminators: TAB, LF, VT, FF, CR, SP. *)
Definition is_space (c : ascii) : bool :=
  let n := nat_of_ascii c in
  ((9 <=? n)%nat && (n <=? 13)%nat) || (n =? 32)%nat.

(** The white space of two bytes in UTF-8: U+00A0. *)
Definition is_space2 (c1 c2 : ascii) : bool :=
  (nat_of_ascii c1 =? 194)%nat && (nat_of_ascii c2 =? 160)%nat.

(** The white space and line terminators of three bytes in UTF-8:
    U+1680, U+2000 to U+200A, U+2028, U+2029, U+202F, U+205F, U+3000 and
    U+FEFF. *)
Definition is_space3 (c1 c2 c3 : ascii) : bool :=
  let n1 := nat_of_ascii c1 in
  let n2 := nat_of_ascii c2 in
  let n3 := nat_of_ascii c3 in
  ((n1 =? 225) && (n2 =? 154) && (n3 =? 128)
   || (n1 =? 226) && (n2 =? 128)
      && ((128 <=? n3) && (n3 <=? 138) || (n3 =? 168) || (n3 =? 169)
          || (n3 =? 175))
   || (n1 =? 226) && (n2 =? 129) && (n3 =? 159)
   || (n1 =? 227) && (n2 =? 128) && (n3 =? 128)
   || (n1 =? 239) && (n2 =? 187) && (n3 =? 191))%nat.

Fixpoint trimStart (s : string) : string :=
  match s with
  | String c1 s1 =>
      if is_space c1 then trimStart s1
      else
        match s1 with
        | String c2 s2 =>
            if is_space2 c1 c2 then trimStart s2
            else
              match s2 with
              | String c3 s3 =>
                  if is_space3 c1 c2 c3 then trimStart s3 else s
              | EmptyString => s
              end
        | EmptyString => s
        end
  | EmptyString => s
  end.

(** The longest run of decimal digits at the start of [s]: the digits
    read so far as an integer, how many there are, and the rest. *)
Fixpoint digits (acc : Z) (n : nat) (s : string) : Z * nat * string :=
  match s with
  | String c s' =>
      if is_digit c then digits (10 * acc + digit_val c) (S n) s'
      else (acc, n, s)
  | EmptyString => (acc, n, s)
  end.

(** [ExponentPart] when one is there: [e] or [E], an optional sign and at
    least one digit; otherwise exponent 0. *)
Definition exponent (s : string) : Z :=
  match s with
  | String c s' =>
      if Ascii.eqb c "e" || Ascii.eqb c "E" then
        match s' with
        | String "+" s'' =>
            let '(e, n, _) := digits 0 0 s'' in if (n =? 0)%nat then 0 else e
        | String "-" s'' =>
            let '(e, n, _) := digits 0 0 s'' in if (n =? 0)%nat then 0 else - e
        | _ =>
            let '(e, n, _) := digits 0 0 s' in if (n =? 0)%nat then 0 else e
        end
      else 0
  | EmptyString => 0
  end%Z.

(** The binary64 value nearest to [(-1)^neg * m * 10^e], for [0 <= m]. *)
Definition decimal_to_number (neg : bool) (m e : Z) : number :=
  match m with
  | Z0 => if neg then neg_zero else zero
  | Zpos p =>
      if (0 <=? e)%Z then
        SF2Prim (binary_round prec emax neg (p * Z.to_pos (10 ^ e))%positive 0)
      else
        let '(q, e2, loc) :=
          SFdiv_core_binary prec emax (Zpos p) 0 (10 ^ (- e))%Z 0 in
        SF2Prim (binary_round_aux prec emax neg q e2 loc)
  | Zneg _ => nan
  end.

Definition unsigned_literal (neg : bool) (s : string) : number :=
  if String.prefix "Infinity" s then
    (if neg then neg_infinity else infinity)
  else
    let '(ip, ni, r1) := digits 0 0 s in
    match r1 with
    | String "." r2 =>
        let '(m, nf, r3) := digits ip 0 r2 in
        if (ni + nf =? 0)%nat then nan
        else decimal_to_number neg m (exponent r3 - Z.of_nat nf)
    | _ =>
        if (ni =? 0)%nat then nan
        else decimal_to_number neg ip (exponent r1)
    end.

Definition parseFloat (s : string) : number :=
  match trimStart s with
  | String "+" r => unsigned_literal false r
  | String "-" r => unsigned_literal true r
  | r => unsigned_literal false r
  end.

(** *** Date.parse, ISO date-only form

    [YYYY-MM-DD] is a UTC date; its time value is the number of days
    since 1970-01-01 times the milliseconds of a day.  Strings of any
    other shape are left to the implementation by the standard, and
    engines accept more of them (other formats, a day past the end of
    its month); this instance reports them as invalid dates and is
    applied to calendar dates in the ISO form only. *)

Definition isLeapYear (y : Z) : bool :=
  ((y mod 4 =? 0) && negb (y mod 100 =? 0) || (y mod 400 =? 0))%Z.

Definition daysInMonth (y m : Z) : Z :=
  (if m =? 2 then (if isLeapYear y then 29 else 28)
   else if (m =? 4) || (m =? 6) || (m =? 9) || (m =? 11) then 30
   else 31)%Z.

(** Days from 1970-01-01 to the civil date [y]-[m]-[d]. *)
Definition daysFromCivil (y m d : Z) : Z :=
  (let y' := if m <=? 2 then y - 1 else y in
   let era := y' / 400 in
   let yoe := y' - era * 400 in
   let doy := (153 * (if 2 <? m then m - 3 else m + 9) + 2) / 5 + d - 1 in
   let doe := yoe * 365 + yoe / 4 - yoe / 100 + doy in
   era * 146097 + doe - 719468)%Z.

Definition msPerDay : Z := 86400000.

Definition Date_parse_iso (s : string) : option Z :=
  match list_ascii_of_string s with
  | [y1; y2; y3; y4; dash1; m1; m2; dash2; d1; d2] =>
      if forallb is_digit [y1; y2; y3; y4; m1; m2; d1; d2]
         && Ascii.eqb dash1 "-" && Ascii.eqb dash2 "-" then
        (let y := 1000 * digit_val y1 + 100 * digit_val y2
                  + 10 * digit_val y3 + digit_val y4 in
         let m := 10 * digit_val m1 + digit_val m2 in
         let d := 10 * digit_val d1 + digit_val d2 in
         if (1 <=? m) && (m <=? 12) && (1 <=? d) && (d <=? daysInMonth y m)
         then Some (daysFromCivil y m d * msPerDay)
         else None)%Z
      else None
  | _ => None
  end.

(** *** Array.prototype.sort

    [arr.sort(comparefn)].  The comparator's result is read by its sign;
    a [NaN] result counts as [+0] (ECMAScript [SortCompare]).  The sort is
    stable.  It is written here as a stable insertion sort: for a
    consistent comparator every stable sort returns the same array, and
    for an inconsistent one the standard leaves the order to the
    implementation, of which this is one instance. *)

Inductive sign := Negative | Zero | Positive | NotANumber.

Section Sort.
Context {A : Type} (comparefn : A -> A -> sign).

(** [SortCompare x y < 0]. *)
Definition before (x y : A) : bool :=
  match comparefn x y with
  | Negative => true
  | _ => false
  end.

Fixpoint insert (x : A) (sorted : list A) : list A :=
  match sorted with
  | [] => [x]
  | y :: rest => if before x y then x :: y :: rest else y :: insert x rest
  end.

(** Elements are inserted from left to right, each one behind the
    elements already placed that do not come after it. *)
Definition sort (arr : list A) : list A :=
  fold_left (fun sorted x => insert x sorted) arr [].
End Sort.

(** *** Exceptions *)

Inductive result (E A : Type) :=
| Ok (a : A)
| Throw (e : E).
Arguments Ok {E A} a.
Arguments Throw {E A} e.

#[global] Instance result_ret {E} : MRet (result E) := fun _ a => Ok a.

#[global] Instance result_bind {E} : MBind (result E) := fun _ _ k m =>
  match m with
  | Ok a => k a
  | Throw e => Throw e
  end.

(** [try { body } catch (error) { handler(error) }]. *)
Definition try_catch {E A} (body : result E A) (handler : E -> result E A)
  : result E A :=
  match body with
  | Ok a => Ok a
  | Throw e => handler e
  end.

End JS.

(** ** Data model *)

(** [Instrument] is declared in [lib/types], which the sources at hand
    do not include: the record has the fields the program reads ([id],
    [symbol], [included]) and, as the parameter [Extra], whatever else
    the declaration carries (quantity, weight, ...). *)
Record Instrument (Extra : Type) := {
  id : string;
  symbol : string;
  extra : Extra;
  included : bool;
}.
Arguments id {Extra} _.
Arguments symbol {Extra} _.
Arguments extra {Extra} _.
Arguments included {Extra} _.

(** A [Date] by its time value: milliseconds since the epoch, an integer
    of magnitude at most 8.64e15, or [None] for an Invalid Date, whose
    [getTime()] is [NaN]. *)
Definition Date := option Z.

Record PriceRecord := {
  date : Date;
  price : JS.number;
}.

(** What [fs.readFileSync] finds at the path of the CSV file. *)
Inductive IOError := ENOENT | EACCES | EISDIR | EIO.

Inductive FileState :=
| Readable (fileContent : string)
| Unreadable (error : IOError).

(** ** lib/financial-data *)

Module Provider.
Import JS.

Definition readFileSync (file : FileState) : result IOError string :=
  match file with
  | Readable fileContent => Ok fileContent
  | Unreadable error => Throw error
  end.

(** [(a, b) => a.date.getTime() - b.date.getTime()], read by its sign.
    Both time values are integers below 2^53 in magnitude, so the sign of
    their binary64 difference is the sign of their difference; the
    difference is [NaN] as soon as one date is invalid. *)
Definition byDate (a b : PriceRecord) : sign :=
  match date a, date b with
  | Some ta, Some tb =>
      match (ta ?= tb)%Z with
      | Lt => Negative
      | Eq => Zero
      | Gt => Positive
      end
  | _, _ => NotANumber
  end.

(** The body of the loop of [calculateDailyReturns]. *)
Definition dailyReturn (yesterdayPrice todayPrice : number) : number :=
  if strict_eq yesterdayPrice 0%float then 0%float
  else ((todayPrice - yesterdayPrice) / yesterdayPrice)%float.

(** [for (let i = 1; i < prices.length; i++)], pushing one return per
    turn.  Both reads are in range at every turn of the loop. *)
Definition calculateDailyReturns (prices : list PriceRecord) : list number :=
  fold_left
    (fun returns i =>
       match prices !! (i - 1)%nat, prices !! i with
       | Some yesterday, Some today =>
           returns ++ [dailyReturn (price yesterday) (price today)]
       | _, _ => returns
       end)
    (seq 1 (length prices - 1)) [].

Section WithDate.
(** [new Date(dateStr)] on a string is [Date.parse]; outside the ISO
    format its result is left to the implementation, so the provider is
    stated over any parser. *)
Variable Date_parse : string -> Date.

(** One turn of the loop over the rows, on the map built so far. *)
Definition processRow (data : gmap string (list PriceRecord)) (row : string)
  : gmap string (list PriceRecord) :=
  if falsy (Some row) then data
  else
    let fields := split COMMA row in
    let dateStr := fields !! 0%nat in
    let symbol := fields !! 1%nat in
    let priceStr := fields !! 2%nat in
    if falsy dateStr || falsy symbol || falsy priceStr then data
    else
      match dateStr, symbol, priceStr with
      | Some dateStr, Some symbol, Some priceStr =>
          let price := parseFloat priceStr in
          let record := {| date := Date_parse dateStr; price := price |} in
          let data :=
            if bool_decide (is_Some (data !! symbol)) then data
            else <[symbol := []]> data in
          alter (fun records => records ++ [record]) symbol data
      | _, _, _ => data
      end.

Definition parseCsvData (file : FileState)
  : result IOError (gmap string (list PriceRecord)) :=
  try_catch
    (fileContent ← readFileSync file;
     let rows := drop 1 (split LF fileContent) in
     let data := fold_left processRow rows ∅ in
     mret (sort byDate <$> data))
    (fun error => mret ∅).

(** One turn of the loop over the instruments. *)
Definition setReturns {Extra}
    (allPriceData : gmap string (list PriceRecord))
    (returnsData : gmap string (list number))
    (instrument : Instrument Extra) : gmap string (list number) :=
  match allPriceData !! symbol instrument with
  | Some instrumentPrices =>
      if (1 <? length instrumentPrices)%nat then
        let dailyReturns := calculateDailyReturns instrumentPrices in
        <[symbol instrument := dailyReturns]> returnsData
      else <[symbol instrument := []]> returnsData
  | None => <[symbol instrument := []]> returnsData
  end.

(** The [Map] returned is modelled by its entries, as [get] and [has]
    read them; the order in which a JavaScript [Map] lists its keys
    (that of their first [set]) is not recorded. *)
Definition getHistoricalData {Extra} (file : FileState)
    (instruments : list (Instrument Extra))
  : result IOError (gmap string (list number)) :=
  allPriceData ← parseCsvData file;
  let returnsData := fold_left (setReturns allPriceData) instruments ∅ in
  mret returnsData.
End WithDate.

End Provider.

(** ** components/var-model-page *)

Module Page.
Import JS.

Section WithEngine.
Context {Extra VaRResult Fault : Type}.
Variable Date_parse : string -> Date.

(** [calculateVaR] of [lib/var-calculator]: the engine, which returns a
    result or throws. *)
Variable calculateVaR :
  list (Instrument Extra) -> gmap string (list number) -> string ->
  result Fault VaRResult.

(** The state hooks of [VarModelPage]. *)
Record PageState := {
  simulationMethod : string;
  instruments : list (Instrument Extra);
  varResults : option VaRResult;
  isCalculating : bool;
}.

(** What the page does to its surroundings. *)
Inductive Effect :=
| Toast (title : string)
| ConsoleError
| CallGetHistoricalData (instruments : list (Instrument Extra))
| CallCalculateVaR (instruments : list (Instrument Extra))
    (returns : gmap string (list number)) (method : string).

Inductive PageError :=
| ProviderError (error : IOError)
| EngineError (error : Fault).

(** A handler runs on the page state and the log of its effects, and
    returns or throws. *)
Definition M (A : Type) : Type :=
  PageState * list Effect -> result PageError A * (PageState * list Effect).

#[local] Instance M_ret : MRet M := fun _ a w => (Ok a, w).

#[local] Instance M_bind : MBind M := fun _ _ k m w =>
  match m w with
  | (Ok a, w') => k a w'
  | (Throw e, w') => (Throw e, w')
  end.

Definition get : M PageState := fun w => (Ok (fst w), w).

Definition emit (e : Effect) : M unit :=
  fun w => (Ok tt, (fst w, snd w ++ [e])).

Definition throw {A} (e : PageError) : M A := fun w => (Throw e, w).

Definition setInstruments
    (update : list (Instrument Extra) -> list (Instrument Extra)) : M unit :=
  fun '(st, log) =>
    (Ok tt, ({| simulationMethod := simulationMethod st;
                instruments := update (instruments st);
                varResults := varResults st;
                isCalculating := isCalculating st |}, log)).

Definition setVarResults (r : option VaRResult) : M unit :=
  fun '(st, log) =>
    (Ok tt, ({| simulationMethod := simulationMethod st;
                instruments := instruments st;
                varResults := r;
                isCalculating := isCalculating st |}, log)).

Definition setIsCalculating (b : bool) : M unit :=
  fun '(st, log) =>
    (Ok tt, ({| simulationMethod := simulationMethod st;
                instruments := instruments st;
                varResults := varResults st;
                isCalculating := b |}, log)).

(** [try { body } catch (error) { handler } finally { finalizer }]. *)
Definition try_catch_finally {A} (body : M A)
    (handler : PageError -> M A) (finalizer : M unit) : M A :=
  fun w =>
    let '(r, w') :=
      match body w with
      | (Ok a, w') => (Ok a, w')
      | (Throw e, w') => handler e w'
      end in
    match finalizer w' with
    | (Ok _, w'') => (r, w'')
    | (Throw e, w'') => (Throw e, w'')
    end.

(** The argument of [addInstrument]: an instrument without [id] and
    [included]. *)
Record NewInstrument := {
  new_symbol : string;
  new_extra : Extra;
}.

(** [rendered] is the [instruments] the handler closes over: the list of
    the render the handler belongs to.  The check reads it; the update
    works on [prev], the list as it is when the update runs.  [uuid] is
    what [crypto.randomUUID()] returns at this call. *)
Definition addInstrument (rendered : list (Instrument Extra))
    (uuid : string) (instrument : NewInstrument) : M unit :=
  let existingInstrument :=
    List.find (fun inst => String.eqb (symbol inst) (new_symbol instrument))
      rendered in
  match existingInstrument with
  | Some _ => emit (Toast "Instrument Exists")
  | None =>
      setInstruments (fun prev =>
        prev ++ [{| id := uuid; symbol := new_symbol instrument;
                    extra := new_extra instrument; included := true |}])
  end.

Definition removeInstrument (id0 : string) : M unit :=
  setInstruments (fun prev =>
    List.filter (fun inst => negb (String.eqb (id inst) id0)) prev).

Definition toggleInstrument (id0 : string) : M unit :=
  setInstruments (fun prev =>
    List.map
      (fun inst =>
         if String.eqb (id inst) id0 then
           {| id := id inst; symbol := symbol inst; extra := extra inst;
              included := negb (included inst) |}
         else inst)
      prev).

(** The server function, called from the client: the map is sent as
    the array of its entries. *)
Definition getHistoricalDataOnClient (file : FileState)
    (instruments : list (Instrument Extra))
  : M (list (string * list number)) :=
  emit (CallGetHistoricalData instruments);;
  match Provider.getHistoricalData Date_parse file instruments with
  | Ok data => mret (map_to_list data)
  | Throw e => throw (ProviderError e)
  end.

Definition callCalculateVaR (instruments : list (Instrument Extra))
    (returns : gmap string (list number)) (method : string)
  : M VaRResult :=
  emit (CallCalculateVaR instruments returns method);;
  match calculateVaR instruments returns method with
  | Ok results => mret results
  | Throw e => throw (EngineError e)
  end.

Definition runCalculation (file : FileState) : M unit :=
  setIsCalculating true;;
  try_catch_finally
    (st ← get;
     let activeInstruments := List.filter included (instruments st) in
     if (length activeInstruments =? 0)%nat then
       setVarResults None
     else
       historicalDataArray ← getHistoricalDataOnClient file activeInstruments;
       let historicalData : gmap string (list number) :=
         list_to_map historicalDataArray in
       results ← callCalculateVaR activeInstruments historicalData
                   (simulationMethod st);
       setVarResults (Some results))
    (fun error => emit ConsoleError;; emit (Toast "Calculation Error"))
    (setIsCalculating false).

(** What can happen on the page: the handlers passed to the sidebar and
    the dashboard, the method selector, and the debounced effect that
    runs the calculation against the file as it then is. *)
Inductive Action :=
| Add (uuid : string) (instrument : NewInstrument)
| Remove (id0 : string)
| Toggle (id0 : string)
| SelectMethod (method : string)
| Calculate (file : FileState).

Definition setSimulationMethod (method : string) : M unit :=
  fun '(st, log) =>
    (Ok tt, ({| simulationMethod := method;
                instruments := instruments st;
                varResults := varResults st;
                isCalculating := isCalculating st |}, log)).

(** The handlers of the render that shows the list [rendered]. *)
Definition handle (rendered : list (Instrument Extra)) (a : Action)
  : M unit :=
  match a with
  | Add uuid instrument => addInstrument rendered uuid instrument
  | Remove id0 => removeInstrument id0
  | Toggle id0 => toggleInstrument id0
  | SelectMethod method => setSimulationMethod method
  | Calculate file => runCalculation file
  end.

(** The initial values of the state hooks. *)
Definition initial : PageState :=
  {| simulationMethod := "parametric"; instruments := [];
     varResults := None; isCalculating := false |}.

(** Page states the handlers produce from the initial one when the page
    is rendered anew after every action, so that every handler called
    belongs to the render of the current state. *)
Inductive reachable : PageState -> Prop :=
| reachable_initial : reachable initial
| reachable_handle a st log :
    reachable st ->
    reachable (fst (snd (handle (instruments st) a (st, log)))).
End WithEngine.

End Page.

(** ** Auxiliary functions of the proofs *)

(** [c] occurs in [s]. *)
Fixpoint contains (c : ascii) (s : string) : bool :=
  match s with
  | EmptyString => false
  | String c' s' => Ascii.eqb c' c || contains c s'
  end.

(** The text of a file with the given lines. *)
Definition fileOf (header : string) (rows : list string) : string :=
  JS.join JS.LF (header :: rows).

(** The symbol and the record a row contributes, when it contributes. *)
Definition parseRow (Date_parse : string -> Date) (row : string)
  : option (string * PriceRecord) :=
  match JS.split JS.COMMA row with
  | String c d :: String c' s :: String c'' p :: _ =>
      Some (String c' s,
            {| date := Date_parse (String c d);
               price := JS.parseFloat (String c'' p) |})
  | _ => None
  end.

(** The records of [symbol] among the rows, in the order of the rows. *)
Definition observations (Date_parse : string -> Date) (symbol : string)
    (rows : list string) : list PriceRecord :=
  omap (fun row =>
          match parseRow Date_parse row with
          | Some (s, r) => if decide (s = symbol) then Some r else None
          | None => None
          end) rows.

(** The return series of a symbol, given the parsed prices. *)
Definition seriesFor (allPriceData : gmap string (list PriceRecord))
    (symbol : string) : list JS.number :=
  match allPriceData !! symbol with
  | Some instrumentPrices =>
      if (1 <? length instrumentPrices)%nat
      then Provider.calculateDailyReturns instrumentPrices
      else []
  | None => []
  end.

(** No data row of the source names [symbol] in its second field; an
    unreadable source names no symbol at all. *)
Definition absentFromSource (file : FileState) (symbol : string) : Prop :=
  match file with
  | Readable fileContent =>
      forall row, row ∈ drop 1 (JS.split JS.LF fileContent) ->
                  JS.split JS.COMMA row !! 1%nat <> Some symbol
  | Unreadable _ => True
  end.

(** The date, symbol or price field of a row is missing or empty. *)
Definition missingField (row : string) : Prop :=
  let fields := JS.split JS.COMMA row in
  JS.falsy (fields !! 0%nat) || JS.falsy (fields !! 1%nat)
    || JS.falsy (fields !! 2%nat) = true.

(** A record with a valid date. *)
Definition validDate (r : PriceRecord) : Prop := is_Some (date r).

(** Chronological order of records with valid dates. *)
Definition notAfter (a b : PriceRecord) : Prop :=
  exists ta tb, date a = Some ta /\ date b = Some tb /\ (ta <= tb)%Z.

(** A data row with its three fields that names [symbol]. *)
Definition namesSymbol (symbol row : string) : Prop :=
  ~ missingField row /\ JS.split JS.COMMA row !! 1%nat = Some symbol.

#[global] Instance namesSymbol_dec symbol row : Decision (namesSymbol symbol row).
Proof. unfold namesSymbol, missingField. apply _. Defined.

(** ** Sample sources *)

Module Sample.
Definition header : string := "date,symbol,price".

Definition instrumentA : Instrument unit :=
  {| id := "id-1"; symbol := "A"; extra := tt; included := true |}.

Definition instrumentB : Instrument unit :=
  {| id := "id-2"; symbol := "B"; extra := tt; included := false |}.

(** The rows of the end-to-end example. *)
Definition threeDays : list string :=
  ["2024-01-01,A,100"; "2024-01-02,A,105"; "2024-01-03,A,98.7"].

(** Two observations of one symbol on the same day, in chronological
    order. *)
Definition sameDay : list string :=
  ["2024-01-01,A,100"; "2024-01-01,A,200"; "2024-01-02,A,300"].

(** A price field that is text. *)
Definition textPrice : list string :=
  ["2024-01-01,A,100"; "2024-01-02,A,abc"].

Definition day (d : Z) (p : JS.number) : PriceRecord :=
  {| date := Some (d * JS.msPerDay)%Z; price := p |}.
Arguments day d%_Z p%_float.

(** A stand-in for the engine: the page only calls it. *)
Definition flatEngine (instruments : list (Instrument unit))
    (returns : gmap string (list JS.number)) (method : string)
  : JS.result string JS.number :=
  if String.eqb method "parametric" || String.eqb method "historical"
  then JS.Ok 0%float
  else JS.Throw "unknown method".

(** A page that holds a stale result and one instrument, switched
    off. *)
Definition nothingActive : @Page.PageState unit JS.number :=
  {| Page.simulationMethod := "historical";
     Page.instruments := [instrumentB];
     Page.varResults := Some 1.5%float;
     Page.isCalculating := false |}.

Definition newA : @Page.NewInstrument unit :=
  {| Page.new_symbol := "A"; Page.new_extra := tt |}.

(** The page after [A] was added to the empty list. *)
Definition afterAddA : @Page.PageState unit JS.number :=
  fst (snd (Page.handle JS.Date_parse_iso flatEngine []
              (Page.Add "id-1" newA) (Page.initial, []))).

(** The page after the handler of that same first render, which showed
    the empty list, was called once more for [A]. *)
Definition afterAddAA : @Page.PageState unit JS.number :=
  fst (snd (Page.handle JS.Date_parse_iso flatEngine []
              (Page.Add "id-2" newA) (afterAddA, []))).

(** The history and the returns of [A] in [threeDays]. *)
Definition threeDaysHistory : list PriceRecord :=
  [day 19723 100; day 19724 105; day 19725 98.7].

Definition threeDaysSeries : gmap string (list JS.number) :=
  <["A" := [0.05; -0.05999999999999997]%float]> ∅.

(** A page with an earlier result, [A] switched on, and the given
    method selected. *)
Definition pageWithA (method : string) : @Page.PageState unit JS.number :=
  {| Page.simulationMethod := method;
     Page.instruments := [instrumentA; instrumentB];
     Page.varResults := Some 1.5%float;
     Page.isCalculating := false |}.
End Sample.

(** Runs the monadic code of a handler on the state at hand. *)
Ltac run_handler :=
  cbv [mbind mret Page.M_bind Page.M_ret Page.get Page.emit Page.throw
       Page.setInstruments Page.setVarResults Page.setIsCalculating
       Page.setSimulationMethod Page.try_catch_finally];
  cbn [fst snd Page.instruments Page.simulationMethod Page.varResults
       Page.isCalculating].

(** ** Strings *)

Section Strings.
Import JS.

Lemma split_nonempty sep s : split sep s <> [].
Proof.
  destruct s as [|c s]; simpl; [discriminate|].
  destruct (Ascii.eqb c sep); [discriminate|].
  destruct (split sep s); discriminate.
Qed.

Lemma split_without sep s : contains sep s = false -> split sep s = [s].
Proof.
  induction s as [|c s IH]; simpl; [reflexivity|].
  intros [Hc Hs]%orb_false_iff. rewrite Hc, (IH Hs). reflexivity.
Qed.

Lemma split_append sep s rest :
  contains sep s = false ->
  split sep (s +:+ String sep rest) = s :: split sep rest.
Proof.
  induction s as [|c s IH]; simpl.
  - intros _. rewrite Ascii.eqb_refl. reflexivity.
  - intros [Hc Hs]%orb_false_iff. rewrite Hc, (IH Hs). reflexivity.
Qed.

Lemma split_join sep parts :
  parts <> [] ->
  Forall (fun p => contains sep p = false) parts ->
  split sep (join sep parts) = parts.
Proof.
  induction parts as [|p [|q rest] IH]; intros Hne Hall; [done| |].
  - simpl. apply split_without. by inversion Hall.
  - inversion Hall as [|? ? Hp Hrest]; subst.
    change (join sep (p :: q :: rest))
      with (p +:+ String sep (join sep (q :: rest))).
    rewrite (split_append _ _ _ Hp), IH; done.
Qed.

Lemma rows_of_file header rows :
  contains LF header = false ->
  Forall (fun row => contains LF row = false) rows ->
  drop 1 (split LF (fileOf header rows)) = rows.
Proof.
  intros Hh Hr. unfold fileOf. rewrite split_join; [done|done|].
  by constructor.
Qed.
End Strings.

(** ** The sort *)

Section SortFacts.
Import JS.
Context {A : Type} (comparefn : A -> A -> sign).

Lemma insert_Permutation x (l : list A) : insert comparefn x l ≡ₚ x :: l.
Proof.
  induction l as [|y l IH]; simpl; [done|].
  destruct (before comparefn x y); [done|].
  rewrite IH. apply Permutation_swap.
Qed.

Lemma fold_insert_Permutation (l acc : list A) :
  fold_left (fun sorted x => insert comparefn x sorted) l acc ≡ₚ acc ++ l.
Proof.
  revert acc. induction l as [|x l IH]; intros acc; simpl.
  - by rewrite app_nil_r.
  - rewrite IH, insert_Permutation.
    change (x :: acc) with ([x] ++ acc).
    rewrite (Permutation_app_comm [x] acc), <- app_assoc. done.
Qed.

Lemma sort_Permutation (l : list A) : sort comparefn l ≡ₚ l.
Proof. apply (fold_insert_Permutation l []). Qed.

Lemma length_sort (l : list A) : length (sort comparefn l) = length l.
Proof. apply Permutation_length, sort_Permutation. Qed.
End SortFacts.

Section SortByDate.
Import JS Provider.

Lemma before_byDate a b ta tb :
  date a = Some ta -> date b = Some tb ->
  before byDate a b = bool_decide (ta < tb)%Z.
Proof.
  intros Ha Hb. unfold before, byDate. rewrite Ha, Hb.
  destruct (Z.compare_spec ta tb); case_bool_decide; done || lia.
Qed.

Lemma notAfter_trans a b c : notAfter a b -> notAfter b c -> notAfter a c.
Proof.
  intros (ta & tb & Ha & Hb & Hab) (tb' & tc & Hb' & Hc & Hbc).
  exists ta, tc. split_and!; [done..|]. simplify_eq. lia.
Qed.

Lemma insert_byDate_sorted x l :
  validDate x -> Forall validDate l ->
  StronglySorted notAfter l ->
  StronglySorted notAfter (insert byDate x l).
Proof.
  intros [tx Hx]. induction l as [|y l IH]; intros Hv Hs; simpl.
  - repeat constructor.
  - inversion Hv as [|? ? [ty Hy] Hv']; subst.
    inversion Hs as [|? ? Hs' Hle]; subst.
    rewrite (before_byDate x y tx ty Hx Hy). case_bool_decide as Hlt.
    + assert (notAfter x y) as Hxy by (exists tx, ty; split_and!; [done..|lia]).
      constructor; [done|]. constructor; [done|].
      eapply Forall_impl; [exact Hle|]. intros z Hz.
      by apply (notAfter_trans x y z).
    + constructor; [by apply IH|].
      rewrite insert_Permutation. constructor; [|done].
      exists ty, tx. split_and!; [done..|lia].
Qed.

Lemma sort_byDate_sorted l :
  Forall validDate l -> StronglySorted notAfter (sort byDate l).
Proof.
  unfold sort. intros Hv.
  enough (forall acc, Forall validDate acc -> StronglySorted notAfter acc ->
            StronglySorted notAfter
              (fold_left (fun sorted x => insert byDate x sorted) l acc)) as H.
  { apply H; constructor. }
  induction Hv as [|x l Hx Hv IH]; intros acc Hacc Hs; simpl; [done|].
  apply IH.
  - rewrite insert_Permutation. by constructor.
  - by apply insert_byDate_sorted.
Qed.

(** A chronological arrangement of records with distinct dates is
    unique. *)
Lemma sorted_unique (l1 l2 : list PriceRecord) :
  StronglySorted notAfter l1 -> StronglySorted notAfter l2 ->
  l1 ≡ₚ l2 -> NoDup (date <$> l1) -> l1 = l2.
Proof.
  revert l2. induction l1 as [|a l1 IH]; intros l2 Hs1 Hs2 Hp Hnd.
  - by apply Permutation_nil_l in Hp.
  - destruct l2 as [|b l2]; [by apply Permutation_nil_r in Hp|].
    inversion Hs1 as [|? ? Hs1' Hle1]; subst.
    inversion Hs2 as [|? ? Hs2' Hle2]; subst.
    apply NoDup_cons in Hnd as [Hna Hnd].
    assert (a = b) as ->.
    { assert (a ∈ b :: l2) as Ha by (rewrite <- Hp; left).
      assert (b ∈ a :: l1) as Hb by (rewrite Hp; left).
      apply elem_of_cons in Ha as [->|Ha]; [done|].
      apply elem_of_cons in Hb as [->|Hb]; [done|].
      rewrite Forall_forall in Hle1, Hle2.
      destruct (Hle1 b Hb) as (ta & tb & Hta & Htb & Hab).
      destruct (Hle2 a Ha) as (tb' & ta' & Htb' & Hta' & Hba).
      simplify_eq. assert (ta = tb) as -> by lia.
      exfalso. apply Hna. rewrite Hta, <- Htb.
      by apply list_elem_of_fmap_2. }
    f_equal. apply IH; [done..| |done].
    by apply Permutation_cons_inv in Hp.
Qed.

Lemma sort_byDate_Permutation l1 l2 :
  l1 ≡ₚ l2 -> Forall validDate l1 -> NoDup (date <$> l1) ->
  sort byDate l1 = sort byDate l2.
Proof.
  intros Hp Hv Hnd. apply sorted_unique.
  - by apply sort_byDate_sorted.
  - apply sort_byDate_sorted. by rewrite <- Hp.
  - by rewrite !sort_Permutation.
  - by rewrite sort_Permutation.
Qed.
End SortByDate.

(** ** The parser *)

Section ParserFacts.
Import JS Provider.
Variable Date_parse : string -> Date.

Lemma processRow_parseRow data row :
  processRow Date_parse data row =
    match parseRow Date_parse row with
    | Some (s, r) => <[s := default [] (data !! s) ++ [r]]> data
    | None => data
    end.
Proof.
  unfold processRow, parseRow.
  destruct row as [|c row]; [done|].
  destruct (split COMMA (String c row)) as [|[|c0 d] [|[|c1 sy] [|[|c2 p] rest]]];
    try done.
  cbn [falsy orb lookup list_lookup].
  apply map_eq. intros k.
  case_bool_decide as Hs.
  - destruct Hs as [recs Hl]. rewrite Hl. simpl.
    destruct (decide (String c1 sy = k)) as [<-|Hne].
    + by rewrite lookup_alter_eq, lookup_insert_eq, Hl.
    + by rewrite lookup_alter_ne, lookup_insert_ne.
  - assert (data !! String c1 sy = None) as Hl.
    { destruct (data !! String c1 sy) eqn:E; [|done]. by destruct Hs. }
    rewrite Hl. simpl.
    destruct (decide (String c1 sy = k)) as [<-|Hne].
    + by rewrite lookup_alter_eq, !lookup_insert_eq.
    + by rewrite lookup_alter_ne, !lookup_insert_ne.
Qed.

Lemma observations_cons s row rows :
  observations Date_parse s (row :: rows) =
    match parseRow Date_parse row with
    | Some (s', r) =>
        if decide (s' = s) then r :: observations Date_parse s rows
        else observations Date_parse s rows
    | None => observations Date_parse s rows
    end.
Proof.
  unfold observations. simpl.
  destruct (parseRow Date_parse row) as [[s' r]|]; [|done].
  by destruct (decide (s' = s)).
Qed.

(** The loop groups the records by symbol, in the order of the rows. *)
Lemma fold_processRow rows data s :
  fold_left (processRow Date_parse) rows data !! s =
    match data !! s with
    | Some l => Some (l ++ observations Date_parse s rows)
    | None =>
        match observations Date_parse s rows with
        | [] => None
        | obs => Some obs
        end
    end.
Proof.
  revert data. induction rows as [|row rows IH]; intros data.
  - simpl. destruct (data !! s); [by rewrite app_nil_r|done].
  - simpl fold_left. rewrite IH, observations_cons, processRow_parseRow.
    destruct (parseRow Date_parse row) as [[s' r]|]; [|done].
    destruct (decide (s' = s)) as [->|Hne].
    + rewrite lookup_insert_eq.
      destruct (data !! s) as [l|]; simpl; [by rewrite <- app_assoc|done].
    + by rewrite lookup_insert_ne.
Qed.

Lemma parseCsvData_Readable fileContent :
  parseCsvData Date_parse (Readable fileContent) =
    Ok (sort byDate <$>
          fold_left (processRow Date_parse)
            (drop 1 (split LF fileContent)) ∅).
Proof. reflexivity. Qed.

Lemma parseCsvData_Unreadable error :
  parseCsvData Date_parse (Unreadable error) = Ok ∅.
Proof. reflexivity. Qed.

(** Reading never fails past the parser. *)
Lemma parseCsvData_Ok file : exists data, parseCsvData Date_parse file = Ok data.
Proof. destruct file; eexists; reflexivity. Qed.

Lemma parsed_lookup fileContent data s :
  parseCsvData Date_parse (Readable fileContent) = Ok data ->
  data !! s =
    match observations Date_parse s (drop 1 (split LF fileContent)) with
    | [] => None
    | obs => Some (sort byDate obs)
    end.
Proof.
  rewrite parseCsvData_Readable. intros [= <-].
  rewrite lookup_fmap, fold_processRow, lookup_empty.
  by destruct (observations _ _ _).
Qed.
End ParserFacts.

(** ** The returns *)

Section ReturnFacts.
Import JS Provider.

(** The loop of [calculateDailyReturns] after its first [n] turns. *)
Lemma returns_loop prices n :
  (n <= length prices - 1)%nat ->
  let returns :=
    fold_left
      (fun returns i =>
         match prices !! (i - 1)%nat, prices !! i with
         | Some yesterday, Some today =>
             returns ++ [dailyReturn (price yesterday) (price today)]
         | _, _ => returns
         end)
      (seq 1 n) [] in
  length returns = n /\
  forall k yesterday today,
    (k < n)%nat -> prices !! k = Some yesterday ->
    prices !! S k = Some today ->
    returns !! k = Some (dailyReturn (price yesterday) (price today)).
Proof.
  induction n as [|n IH]; intros Hn; cbv zeta.
  - split; [done|]. intros; lia.
  - destruct IH as [Hlen Hk]; [lia|].
    rewrite seq_S, fold_left_app. cbn [fold_left Nat.add].
    replace (S n - 1)%nat with n by lia.
    destruct (lookup_lt_is_Some_2 prices n) as [y Hy]; [lia|].
    destruct (lookup_lt_is_Some_2 prices (S n)) as [t Ht]; [lia|].
    rewrite Hy, Ht. split.
    + rewrite length_app, Hlen. simpl. lia.
    + intros k y' t' Hlt Hy' Ht'.
      destruct (decide (k = n)) as [->|Hne].
      * rewrite lookup_app_r, Hlen, Nat.sub_diag by lia.
        simplify_eq. done.
      * rewrite lookup_app_l by lia. apply Hk; [lia|done..].
Qed.

Lemma length_calculateDailyReturns prices :
  length (calculateDailyReturns prices) = (length prices - 1)%nat.
Proof. by apply (returns_loop prices (length prices - 1)). Qed.

Lemma lookup_calculateDailyReturns prices k yesterday today :
  prices !! k = Some yesterday -> prices !! S k = Some today ->
  calculateDailyReturns prices !! k =
    Some (dailyReturn (price yesterday) (price today)).
Proof.
  intros Hy Ht. apply (returns_loop prices (length prices - 1)); [done| |done..].
  apply lookup_lt_Some in Ht. lia.
Qed.

Lemma seriesFor_short data s :
  (data !! s = None \/
   exists prices, data !! s = Some prices /\ (length prices < 2)%nat) ->
  seriesFor data s = [].
Proof.
  unfold seriesFor. intros [->|(prices & -> & Hlen)]; [done|].
  destruct (Nat.ltb_spec 1 (length prices)); [lia|done].
Qed.

Lemma length_seriesFor data s :
  length (seriesFor data s) = (length (default [] (data !! s)) - 1)%nat.
Proof.
  unfold seriesFor. destruct (data !! s) as [prices|]; simpl; [|done].
  destruct (Nat.ltb_spec 1 (length prices)).
  - apply length_calculateDailyReturns.
  - simpl. lia.
Qed.

(** The loop over the instruments sets one entry per symbol met. *)
Lemma fold_instruments {Extra} (allPriceData : gmap string (list PriceRecord))
    (instruments : list (Instrument Extra))
    (returnsData : gmap string (list number)) s :
  fold_left (setReturns allPriceData) instruments returnsData !! s =
    if decide (s ∈ symbol <$> instruments)
    then Some (seriesFor allPriceData s)
    else returnsData !! s.
Proof.
  revert returnsData.
  induction instruments as [|inst instruments IH]; intros returnsData.
  - cbn [fold_left]. rewrite decide_False; [done|]. apply not_elem_of_nil.
  - simpl fold_left. rewrite IH. rewrite fmap_cons. unfold setReturns.
    destruct (decide (s ∈ symbol <$> instruments)) as [Hin|Hnin].
    + rewrite decide_True; [done|by right].
    + destruct (decide (s = symbol inst)) as [->|Hne].
      * rewrite decide_True by left. unfold seriesFor.
        destruct (allPriceData !! symbol inst) as [prices|];
          [destruct (1 <? length prices)%nat|]; by rewrite lookup_insert_eq.
      * rewrite decide_False; [|rewrite elem_of_cons; tauto].
        destruct (allPriceData !! symbol inst) as [prices|];
          [destruct (1 <? length prices)%nat|]; by rewrite lookup_insert_ne.
Qed.

Lemma getHistoricalData_lookup {Extra} Date_parse file
    (instruments : list (Instrument Extra)) :
  exists data returns,
    parseCsvData Date_parse file = Ok data /\
    getHistoricalData Date_parse file instruments = Ok returns /\
    forall s, returns !! s =
      if decide (s ∈ symbol <$> instruments)
      then Some (seriesFor data s) else None.
Proof.
  destruct (parseCsvData_Ok Date_parse file) as [data Hdata].
  exists data. eexists. split; [done|].
  unfold getHistoricalData. rewrite Hdata. split; [reflexivity|].
  intros s. rewrite fold_instruments. by rewrite lookup_empty.
Qed.
End ReturnFacts.

Section SourceFacts.
Import JS Provider.
Variable Date_parse : string -> Date.

Lemma parseRow_symbol row s r :
  parseRow Date_parse row = Some (s, r) ->
  split COMMA row !! 1%nat = Some s.
Proof.
  unfold parseRow.
  destruct (split COMMA row) as [|[|c0 d] [|[|c1 sy] [|[|c2 p] rest]]];
    try done.
  by intros [= <- _].
Qed.

Lemma parseRow_missing row :
  missingField row -> parseRow Date_parse row = None.
Proof.
  unfold missingField, parseRow.
  destruct (split COMMA row) as [|[|c0 d] [|[|c1 sy] [|[|c2 p] rest]]];
    done.
Qed.

Lemma observations_absent s rows :
  (forall row, row ∈ rows -> split COMMA row !! 1%nat <> Some s) ->
  observations Date_parse s rows = [].
Proof.
  induction rows as [|row rows IH]; intros Habs; [done|].
  rewrite observations_cons.
  destruct (parseRow Date_parse row) as [[s' r]|] eqn:Hrow.
  - apply parseRow_symbol in Hrow.
    destruct (decide (s' = s)) as [->|_].
    + exfalso. apply (Habs row); [left|done].
    + apply IH. intros row' Hin. apply Habs. by right.
  - apply IH. intros row' Hin. apply Habs. by right.
Qed.

Lemma absent_not_parsed file s data :
  absentFromSource file s ->
  parseCsvData Date_parse file = Ok data -> data !! s = None.
Proof.
  destruct file as [fileContent|error]; simpl.
  - intros Habs Hdata.
    rewrite (parsed_lookup _ _ _ s Hdata), observations_absent; done.
  - intros _ [= <-]. apply lookup_empty.
Qed.

Lemma observations_Permutation s rows1 rows2 :
  rows1 ≡ₚ rows2 ->
  observations Date_parse s rows1 ≡ₚ observations Date_parse s rows2.
Proof. intros Hp. unfold observations. by rewrite Hp. Qed.

Lemma fold_processRow_skip before row after data :
  missingField row ->
  fold_left (processRow Date_parse) (before ++ row :: after) data =
  fold_left (processRow Date_parse) (before ++ after) data.
Proof.
  intros Hm. rewrite !fold_left_app. simpl.
  by rewrite (processRow_parseRow _ _ row), parseRow_missing.
Qed.
End SourceFacts.

(** ** Properties of the provider *)

Section ProviderProperties.
Import JS Provider.

(** C1.  At every index [i >= 1] of a price list (date-sorted or not)
    the return stored at position [i - 1] is
    [(price[i] - price[i-1]) / price[i-1]] when [price[i-1]] is not
    [0], and is exactly [0] when [price[i-1] === 0]: a zero previous
    price gives a return that is neither infinite nor [NaN]. *)
Theorem calculateDailyReturns_formula (prices : list PriceRecord) (i : nat)
    (yesterday today : PriceRecord) :
  (1 <= i)%nat ->
  prices !! (i - 1)%nat = Some yesterday ->
  prices !! i = Some today ->
  exists r,
    calculateDailyReturns prices !! (i - 1)%nat = Some r /\
    (strict_eq (price yesterday) 0%float = false ->
     r = ((price today - price yesterday) / price yesterday)%float) /\
    (strict_eq (price yesterday) 0%float = true ->
     r = 0%float /\ isNaN r = false /\ isFinite r = true).
Proof.
  intros Hi Hy Ht.
  exists (dailyReturn (price yesterday) (price today)). split.
  - apply lookup_calculateDailyReturns; [done|].
    by replace (S (i - 1)) with i by lia.
  - unfold dailyReturn. split; intros ->; done.
Qed.

(** C2.  For an instrument of the list whose parsed price history has
    [n >= 2] records the return series has [n - 1] entries; with fewer
    than two records, or none, the series is empty. *)
Theorem return_series_length {Extra} (Date_parse : string -> Date)
    (file : FileState) (instruments : list (Instrument Extra))
    (instrument : Instrument Extra) :
  instrument ∈ instruments ->
  exists data returns series,
    parseCsvData Date_parse file = Ok data /\
    getHistoricalData Date_parse file instruments = Ok returns /\
    returns !! symbol instrument = Some series /\
    (forall prices,
       data !! symbol instrument = Some prices ->
       (2 <= length prices)%nat ->
       length series = (length prices - 1)%nat) /\
    ((data !! symbol instrument = None \/
      exists prices, data !! symbol instrument = Some prices /\
                     (length prices < 2)%nat) ->
     series = []).
Proof.
  intros Hin.
  destruct (getHistoricalData_lookup Date_parse file instruments)
    as (data & returns & Hdata & Hret & Hlookup).
  exists data, returns, (seriesFor data (symbol instrument)).
  split_and!; [done..| | |].
  - rewrite Hlookup, decide_True; [done|]. by apply list_elem_of_fmap_2.
  - intros prices Hp _. by rewrite length_seriesFor, Hp.
  - apply seriesFor_short.
Qed.

(** C3.  Whatever the source, readable or not, [getHistoricalData]
    returns; its mapping has an entry for every instrument of the list,
    and that entry is the empty list when no data row of the source
    names the symbol or when the symbol has fewer than two records. *)
Theorem entry_for_every_instrument {Extra} (Date_parse : string -> Date)
    (file : FileState) (instruments : list (Instrument Extra))
    (instrument : Instrument Extra) :
  instrument ∈ instruments ->
  exists returns,
    getHistoricalData Date_parse file instruments = Ok returns /\
    is_Some (returns !! symbol instrument) /\
    (absentFromSource file (symbol instrument) ->
     returns !! symbol instrument = Some []) /\
    (forall data prices,
       parseCsvData Date_parse file = Ok data ->
       data !! symbol instrument = Some prices ->
       (length prices < 2)%nat ->
       returns !! symbol instrument = Some []).
Proof.
  intros Hin.
  destruct (getHistoricalData_lookup Date_parse file instruments)
    as (data & returns & Hdata & Hret & Hlookup).
  assert (returns !! symbol instrument
          = Some (seriesFor data (symbol instrument))) as Hs.
  { rewrite Hlookup, decide_True; [done|]. by apply list_elem_of_fmap_2. }
  exists returns. split_and!; [done|rewrite Hs; by eexists| |].
  - intros Habs. rewrite Hs, seriesFor_short; [done|]. left.
    by apply (absent_not_parsed Date_parse file).
  - intros data' prices Hdata' Hp Hlen.
    rewrite Hdata in Hdata'. injection Hdata' as <-.
    rewrite Hs, seriesFor_short; [done|]. right. by exists prices.
Qed.

(** C5.  When the source cannot be read, the failure stops in the
    parser, which returns the empty map; [getHistoricalData] returns a
    mapping in which every series is empty and every instrument of the
    list has one, and this is the very mapping it returns for a source
    that is readable and holds no data row. *)
Theorem unreadable_source_is_no_data {Extra} (Date_parse : string -> Date)
    (error : IOError) (instruments : list (Instrument Extra)) :
  parseCsvData Date_parse (Unreadable error) = Ok ∅ /\
  exists returns,
    getHistoricalData Date_parse (Unreadable error) instruments
      = Ok returns /\
    (forall s series, returns !! s = Some series -> series = []) /\
    (forall instrument, instrument ∈ instruments ->
       returns !! symbol instrument = Some []) /\
    getHistoricalData Date_parse (Readable "") instruments = Ok returns /\
    (forall header, contains LF header = false ->
       getHistoricalData Date_parse (Readable header) instruments
         = Ok returns).
Proof.
  split; [done|].
  destruct (getHistoricalData_lookup Date_parse (Unreadable error) instruments)
    as (data & returns & Hdata & Hret & Hlookup).
  simpl in Hdata. injection Hdata as <-.
  exists returns. split_and!; [done| | | |].
  - intros s series. rewrite Hlookup. case_decide; [|done].
    by intros [= <-].
  - intros inst Hin. rewrite Hlookup, decide_True; [done|].
    by apply list_elem_of_fmap_2.
  - done.
  - intros header Hh. rewrite <- Hret. unfold getHistoricalData.
    rewrite parseCsvData_Readable, split_without by done. done.
Qed.

(** C10.  The keys of the mapping returned by [getHistoricalData] are
    exactly the symbols of the instruments of the list: a symbol of the
    source that was not asked for has no entry, and a symbol asked for
    more than once has one entry. *)
Theorem returns_keys {Extra} (Date_parse : string -> Date)
    (file : FileState) (instruments : list (Instrument Extra)) :
  exists returns,
    getHistoricalData Date_parse file instruments = Ok returns /\
    dom returns = list_to_set (symbol <$> instruments) /\
    (forall s, s ∉ symbol <$> instruments -> returns !! s = None) /\
    size returns = length (remove_dups (symbol <$> instruments)).
Proof.
  destruct (getHistoricalData_lookup Date_parse file instruments)
    as (data & returns & Hdata & Hret & Hlookup).
  assert (dom returns = list_to_set (symbol <$> instruments)) as Hdom.
  { apply set_eq. intros s.
    rewrite elem_of_dom, Hlookup, elem_of_list_to_set.
    case_decide as H; split.
    - done.
    - intros _. by eexists.
    - by intros [? ?].
    - intros Hs. by destruct H. }
  exists returns. split_and!; [done..| |].
  - intros s Hs. by rewrite Hlookup, decide_False.
  - rewrite <- size_dom, Hdom.
    rewrite <- (size_list_to_set (C := gset string) (remove_dups _))
      by apply NoDup_remove_dups.
    f_equal. apply set_eq. intros s.
    by rewrite !elem_of_list_to_set, elem_of_remove_dups.
Qed.
End ProviderProperties.

Section RowProperties.
Import JS Provider.

(** C6.  A data row whose date, symbol or price field is missing or
    empty is skipped: the parser returns, and returns the map it
    returns for the source without that row, so the row adds no record
    to any symbol; the return series are those of the source without
    the row. *)
Theorem row_with_missing_field_is_skipped {Extra}
    (Date_parse : string -> Date) (header : string)
    (before : list string) (row : string) (after : list string)
    (instruments : list (Instrument Extra)) :
  contains LF header = false ->
  Forall (fun r => contains LF r = false) (before ++ row :: after) ->
  missingField row ->
  exists data,
    parseCsvData Date_parse
      (Readable (fileOf header (before ++ row :: after))) = Ok data /\
    parseCsvData Date_parse
      (Readable (fileOf header (before ++ after))) = Ok data /\
    getHistoricalData Date_parse
      (Readable (fileOf header (before ++ row :: after))) instruments =
    getHistoricalData Date_parse
      (Readable (fileOf header (before ++ after))) instruments.
Proof.
  intros Hh Hrows Hm.
  assert (Forall (fun r => contains LF r = false) (before ++ after)) as Hrows'.
  { apply Forall_app in Hrows as [Hb Ha]. apply Forall_app. split; [done|].
    by inversion Ha. }
  assert (parseCsvData Date_parse
            (Readable (fileOf header (before ++ row :: after))) =
          parseCsvData Date_parse
            (Readable (fileOf header (before ++ after)))) as Heq.
  { rewrite !parseCsvData_Readable, !rows_of_file by done.
    by rewrite fold_processRow_skip. }
  destruct (parseCsvData_Ok Date_parse
              (Readable (fileOf header (before ++ after)))) as [data Hdata].
  exists data. split_and!; [by rewrite Heq|done|].
  unfold getHistoricalData. by rewrite Heq.
Qed.

(** C4, amended.  When in the parsed price history every symbol has
    records with valid, pairwise distinct dates, the order of the data
    rows does not matter: every permutation of the rows (their reversal
    among them) is parsed to the same map and gives the same return
    series for every instrument list. *)
Theorem row_order_invariance {Extra} (Date_parse : string -> Date)
    (header : string) (rows1 rows2 : list string)
    (instruments : list (Instrument Extra)) :
  contains LF header = false ->
  Forall (fun r => contains LF r = false) rows1 ->
  rows1 ≡ₚ rows2 ->
  (forall data s prices,
     parseCsvData Date_parse (Readable (fileOf header rows1)) = Ok data ->
     data !! s = Some prices ->
     Forall validDate prices /\ NoDup (date <$> prices)) ->
  parseCsvData Date_parse (Readable (fileOf header rows2)) =
  parseCsvData Date_parse (Readable (fileOf header rows1)) /\
  getHistoricalData Date_parse (Readable (fileOf header rows2)) instruments =
  getHistoricalData Date_parse (Readable (fileOf header rows1)) instruments.
Proof.
  intros Hh Hr1 Hp Hdates.
  assert (Forall (fun r => contains LF r = false) rows2) as Hr2
    by (by rewrite <- Hp).
  assert (parseCsvData Date_parse (Readable (fileOf header rows2)) =
          parseCsvData Date_parse (Readable (fileOf header rows1))) as Heq.
  { destruct (parseCsvData_Ok Date_parse (Readable (fileOf header rows1)))
      as [data1 H1].
    destruct (parseCsvData_Ok Date_parse (Readable (fileOf header rows2)))
      as [data2 H2].
    rewrite H1, H2. f_equal. apply map_eq. intros s.
    rewrite (parsed_lookup _ _ _ s H1), (parsed_lookup _ _ _ s H2).
    rewrite !rows_of_file by done.
    pose proof (observations_Permutation Date_parse s _ _ Hp) as Hobs.
    destruct (observations Date_parse s rows1) as [|r1 obs1] eqn:E1.
    { apply Permutation.Permutation_nil in Hobs. by rewrite Hobs. }
    destruct (observations Date_parse s rows2) as [|r2 obs2] eqn:E2.
    { symmetry in Hobs. by apply Permutation.Permutation_nil in Hobs. }
    f_equal. symmetry.
    destruct (Hdates data1 s (sort byDate (r1 :: obs1)) H1) as [Hv Hnd].
    { rewrite (parsed_lookup _ _ _ s H1), rows_of_file by done.
      by rewrite E1. }
    apply sort_byDate_Permutation; [done| |].
    - by rewrite <- (sort_Permutation byDate).
    - by rewrite <- (sort_Permutation byDate (r1 :: obs1)). }
  split; [done|]. unfold getHistoricalData. by rewrite Heq.
Qed.
End RowProperties.

(** ** The provider on the sample sources *)

Section ProviderSamples.
Import JS Provider Sample.

Example split_row :
  split COMMA "2024-01-02,AAPL,185.5" = ["2024-01-02"; "AAPL"; "185.5"].
Proof. reflexivity. Qed.

Example split_trailing_newline :
  split LF (fileOf header ["2024-01-02,A,1"; ""]) =
    [header; "2024-01-02,A,1"; ""].
Proof. reflexivity. Qed.

Example parseFloat_decimal : parseFloat "98.7" = 98.7%float.
Proof. vm_compute. reflexivity. Qed.

Example parseFloat_prefix : parseFloat "  -1.5e2 USD" = (-150)%float.
Proof. vm_compute. reflexivity. Qed.

Example parseFloat_ties_to_even :
  parseFloat "9007199254740993" = 9007199254740992%float.
Proof. vm_compute. reflexivity. Qed.

Example parseFloat_text : isNaN (parseFloat "abc") = true.
Proof. vm_compute. reflexivity. Qed.

Example Date_parse_iso_2024 :
  Date_parse_iso "2024-01-01" = Some 1704067200000%Z.
Proof. reflexivity. Qed.

(** The end-to-end example: prices 100, 105, 98.7. *)
Example threeDays_returns :
  getHistoricalData Date_parse_iso (Readable (fileOf header threeDays))
    [instrumentA; instrumentB]
  = Ok (<["A" := [0.05; -0.05999999999999997]%float]> (<["B" := []]> ∅)).
Proof. vm_compute. reflexivity. Qed.

Lemma calculateDailyReturns_formula_witness :
  exists r,
    calculateDailyReturns [day 0 100; day 1 0; day 2 5] !! (2 - 1)%nat
      = Some r /\
    (strict_eq (price (day 1 0)) 0%float = false ->
     r = ((price (day 2 5) - price (day 1 0)) / price (day 1 0))%float) /\
    (strict_eq (price (day 1 0)) 0%float = true ->
     r = 0%float /\ isNaN r = false /\ isFinite r = true).
Proof.
  apply (calculateDailyReturns_formula
           [day 0 100; day 1 0; day 2 5] 2 (day 1 0) (day 2 5)).
  - lia.
  - reflexivity.
  - reflexivity.
Defined.

Lemma return_series_length_witness :
  exists data returns series,
    parseCsvData Date_parse_iso (Readable (fileOf header threeDays))
      = Ok data /\
    getHistoricalData Date_parse_iso (Readable (fileOf header threeDays))
      [instrumentA; instrumentB] = Ok returns /\
    returns !! symbol instrumentA = Some series /\
    (forall prices,
       data !! symbol instrumentA = Some prices ->
       (2 <= length prices)%nat ->
       length series = (length prices - 1)%nat) /\
    ((data !! symbol instrumentA = None \/
      exists prices, data !! symbol instrumentA = Some prices /\
                     (length prices < 2)%nat) ->
     series = []).
Proof.
  apply (return_series_length Date_parse_iso
           (Readable (fileOf header threeDays))
           [instrumentA; instrumentB] instrumentA).
  apply list_elem_of_here.
Defined.

Lemma entry_for_every_instrument_witness :
  exists returns,
    getHistoricalData Date_parse_iso (Readable (fileOf header threeDays))
      [instrumentA; instrumentB] = Ok returns /\
    is_Some (returns !! symbol instrumentB) /\
    (absentFromSource (Readable (fileOf header threeDays))
       (symbol instrumentB) ->
     returns !! symbol instrumentB = Some []) /\
    (forall data prices,
       parseCsvData Date_parse_iso (Readable (fileOf header threeDays))
         = Ok data ->
       data !! symbol instrumentB = Some prices ->
       (length prices < 2)%nat ->
       returns !! symbol instrumentB = Some []).
Proof.
  apply (entry_for_every_instrument Date_parse_iso
           (Readable (fileOf header threeDays))
           [instrumentA; instrumentB] instrumentB).
  apply list_elem_of_further, list_elem_of_here.
Defined.

Lemma row_with_missing_field_is_skipped_witness :
  exists data,
    parseCsvData Date_parse_iso
      (Readable (fileOf header
         (["2024-01-01,A,100"] ++ "2024-01-02,,101" :: ["2024-01-03,A,102"])))
      = Ok data /\
    parseCsvData Date_parse_iso
      (Readable (fileOf header
         (["2024-01-01,A,100"] ++ ["2024-01-03,A,102"]))) = Ok data /\
    getHistoricalData Date_parse_iso
      (Readable (fileOf header
         (["2024-01-01,A,100"] ++ "2024-01-02,,101" :: ["2024-01-03,A,102"])))
      [instrumentA] =
    getHistoricalData Date_parse_iso
      (Readable (fileOf header
         (["2024-01-01,A,100"] ++ ["2024-01-03,A,102"]))) [instrumentA].
Proof.
  apply (row_with_missing_field_is_skipped Date_parse_iso header
           ["2024-01-01,A,100"] "2024-01-02,,101" ["2024-01-03,A,102"]
           [instrumentA]).
  - reflexivity.
  - repeat constructor.
  - reflexivity.
Defined.

Lemma threeDays_parsed :
  parseCsvData Date_parse_iso (Readable (fileOf header threeDays)) =
    Ok (<["A" := [day 19723 100; day 19724 105; day 19725 98.7]]> ∅).
Proof. vm_compute. reflexivity. Qed.

Lemma row_order_invariance_witness :
  parseCsvData Date_parse_iso (Readable (fileOf header (rev threeDays))) =
  parseCsvData Date_parse_iso (Readable (fileOf header threeDays)) /\
  getHistoricalData Date_parse_iso
    (Readable (fileOf header (rev threeDays))) [instrumentA] =
  getHistoricalData Date_parse_iso
    (Readable (fileOf header threeDays)) [instrumentA].
Proof.
  apply (row_order_invariance Date_parse_iso header threeDays
           (rev threeDays) [instrumentA]).
  - reflexivity.
  - repeat constructor.
  - apply Permutation_rev.
  - intros data s prices Hdata Hs.
    rewrite threeDays_parsed in Hdata. injection Hdata as <-.
    apply lookup_insert_Some in Hs as [[_ <-]|[_ Hs]].
    + split.
      * repeat constructor; by eexists.
      * apply (bool_decide_unpack _). vm_compute. exact I.
    + by rewrite lookup_empty in Hs.
Defined.

(** C4, as stated, fails.  With two rows of one symbol on the same day
    the rows in chronological order give the returns [1; 0.5], and the
    same rows in reverse order give [-0.5; 2]: the sort is by date
    only and keeps rows of equal date in the order of the source. *)
Lemma reversed_rows_change_returns :
  sameDay ≡ₚ rev sameDay /\
  getHistoricalData Date_parse_iso
    (Readable (fileOf header sameDay)) [instrumentA]
    = Ok {[ "A" := [1; 0.5]%float ]} /\
  getHistoricalData Date_parse_iso
    (Readable (fileOf header (rev sameDay))) [instrumentA]
    = Ok {[ "A" := [-0.5; 2]%float ]} /\
  getHistoricalData Date_parse_iso
    (Readable (fileOf header (rev sameDay))) [instrumentA]
  <> getHistoricalData Date_parse_iso
       (Readable (fileOf header sameDay)) [instrumentA].
Proof.
  split_and!.
  - apply Permutation_rev.
  - vm_compute. reflexivity.
  - vm_compute. reflexivity.
  - intros H.
    apply (f_equal (fun r =>
             match r with
             | Ok returns =>
                 match returns !! "A" with
                 | Some (x :: _) => PrimFloat.ltb x 0
                 | _ => false
                 end
             | Throw _ => false
             end)) in H.
    vm_compute in H. discriminate H.
Qed.

(** C7.  The price field is parsed and not checked.  For the source
    with the rows [2024-01-01,A,100] and [2024-01-02,A,abc] the second
    row has a non-empty price field that is not a number; the row is
    kept, its record has the price [NaN], and the return series that
    [getHistoricalData] returns for [A] holds [NaN]. *)
Theorem text_price_reaches_returns :
  exists (fileContent row priceStr : string)
         (data : gmap string (list PriceRecord)) (prices : list PriceRecord)
         (returns : gmap string (list number)) (series : list number),
    row ∈ drop 1 (split LF fileContent) /\
    split COMMA row !! 1%nat = Some "A" /\
    split COMMA row !! 2%nat = Some priceStr /\
    priceStr <> "" /\
    isNaN (parseFloat priceStr) = true /\
    parseCsvData Date_parse_iso (Readable fileContent) = Ok data /\
    data !! "A" = Some prices /\
    (2 <= length prices)%nat /\
    Exists (fun r => isNaN (price r) = true) prices /\
    getHistoricalData Date_parse_iso (Readable fileContent) [instrumentA]
      = Ok returns /\
    returns !! "A" = Some series /\
    Exists (fun x => isNaN x = true) series.
Proof.
  exists (fileOf header textPrice), "2024-01-02,A,abc", "abc",
         {[ "A" := [day 19723 100; day 19724 nan] ]},
         [day 19723 100; day 19724 nan],
         {[ "A" := [nan] ]}, [nan].
  split_and!.
  - vm_compute. apply list_elem_of_further, list_elem_of_here.
  - reflexivity.
  - reflexivity.
  - discriminate.
  - vm_compute. reflexivity.
  - vm_compute. reflexivity.
  - vm_compute. reflexivity.
  - simpl. lia.
  - apply Exists_cons_tl, Exists_cons_hd. reflexivity.
  - vm_compute. reflexivity.
  - vm_compute. reflexivity.
  - apply Exists_cons_hd. reflexivity.
Qed.
End ProviderSamples.

(** ** Properties of the page *)

Section PageProperties.
Import JS Page.
Context {Extra VaRResult Fault : Type}.
Variable Date_parse : string -> Date.
Variable calculateVaR :
  list (Instrument Extra) -> gmap string (list number) -> string ->
  result Fault VaRResult.

Abbreviation PageState := (@PageState Extra VaRResult).
Abbreviation Effect := (@Effect Extra).
Abbreviation NewInstrument := (@NewInstrument Extra).
Abbreviation handle := (@handle Extra VaRResult Fault Date_parse calculateVaR).
Abbreviation reachable :=
  (@reachable Extra VaRResult Fault Date_parse calculateVaR).
Abbreviation runCalculation :=
  (@runCalculation Extra VaRResult Fault Date_parse calculateVaR).
Abbreviation addInstrument := (@addInstrument Extra VaRResult Fault).
Abbreviation removeInstrument := (@removeInstrument Extra VaRResult Fault).
Abbreviation toggleInstrument := (@toggleInstrument Extra VaRResult Fault).

(** The instrument list a handler leaves behind. *)
Abbreviation after m st log := (instruments (fst (snd (m (st, log))))).

Lemma find_symbol_None (l : list (Instrument Extra)) s :
  List.find (fun inst => String.eqb (symbol inst) s) l = None <->
  s ∉ symbol <$> l.
Proof.
  induction l as [|inst l IH]; simpl.
  - split; [intros _; apply not_elem_of_nil|done].
  - rewrite not_elem_of_cons.
    destruct (String.eqb_spec (symbol inst) s) as [->|Hne].
    + split; [done|]. by intros [? _].
    + rewrite IH. split; [|by intros [_ ?]]. by split; [congruence|].
Qed.

Lemma addInstrument_existing (st : PageState) (log : list Effect)
    rendered uuid (instrument : NewInstrument) :
  new_symbol instrument ∈ symbol <$> rendered ->
  addInstrument rendered uuid instrument (st, log)
    = (Ok tt, (st, log ++ [Toast "Instrument Exists"])).
Proof.
  intros Hin. unfold Page.addInstrument. run_handler.
  match goal with
  | |- context [List.find ?f ?l] => destruct (List.find f l) eqn:Hfind
  end; [done|].
  apply find_symbol_None in Hfind. done.
Qed.

Lemma addInstrument_NoDup (st : PageState) (log : list Effect) uuid
    (instrument : NewInstrument) :
  NoDup (symbol <$> instruments st) ->
  NoDup (symbol <$>
           after (addInstrument (instruments st) uuid instrument) st log).
Proof.
  intros Hnd. unfold Page.addInstrument. run_handler.
  match goal with
  | |- context [List.find ?f ?l] => destruct (List.find f l) eqn:Hfind
  end; [done|].
  apply find_symbol_None in Hfind. cbn.
  rewrite fmap_app. apply NoDup_app. split_and!; [done| |].
  - intros s Hs [->|Hnil%elem_of_nil]%elem_of_cons; done.
  - apply NoDup_singleton.
Qed.

Lemma filter_symbols_NoDup f (l : list (Instrument Extra)) :
  NoDup (symbol <$> l) -> NoDup (symbol <$> List.filter f l).
Proof.
  induction l as [|inst l IH]; simpl; [done|].
  intros [Hnin Hnd]%NoDup_cons.
  destruct (f inst); [|by apply IH].
  rewrite fmap_cons. apply NoDup_cons. split; [|by apply IH].
  intros (inst' & Hs & Hin)%list_elem_of_fmap.
  apply Hnin, list_elem_of_fmap. exists inst'. split; [done|].
  apply list_elem_of_In. apply list_elem_of_In in Hin.
  by apply List.filter_In in Hin as [? _].
Qed.

Lemma toggle_symbols id0 (l : list (Instrument Extra)) :
  symbol <$>
    List.map
      (fun inst =>
         if String.eqb (id inst) id0 then
           {| id := id inst; symbol := symbol inst; extra := extra inst;
              included := negb (included inst) |}
         else inst) l
  = symbol <$> l.
Proof.
  induction l as [|inst l IH]; [done|].
  cbn [List.map]. rewrite !fmap_cons, IH.
  by destruct (String.eqb (id inst) id0).
Qed.

Lemma runCalculation_instruments file (st : PageState) (log : list Effect) :
  after (runCalculation file) st log = instruments st.
Proof.
  unfold Page.runCalculation, Page.getHistoricalDataOnClient,
    Page.callCalculateVaR. run_handler.
  destruct (List.filter included (instruments st)) as [|inst active];
    [done|].
  cbn [length Nat.eqb].
  destruct (Provider.getHistoricalData _ _ _) as [data|e]; [|done].
  cbn [fst snd]. by destruct (calculateVaR _ _ _).
Qed.

Lemma addInstrument_fresh (st : PageState) (log : list Effect)
    rendered uuid (instrument : NewInstrument) :
  new_symbol instrument ∉ symbol <$> rendered ->
  after (addInstrument rendered uuid instrument) st log =
    instruments st ++
      [{| id := uuid; symbol := new_symbol instrument;
          extra := new_extra instrument; included := true |}].
Proof.
  intros Hnin. unfold Page.addInstrument. run_handler.
  apply find_symbol_None in Hnin. by rewrite Hnin.
Qed.

(** With an included instrument the provider is asked for the active
    instruments and the engine is called on what it returned. *)
Lemma runCalculation_calls_engine file (st : PageState) (log : list Effect)
    inst active data results :
  List.filter included (instruments st) = inst :: active ->
  Provider.getHistoricalData Date_parse file (inst :: active) = Ok data ->
  calculateVaR (inst :: active) data (simulationMethod st) = Ok results ->
  runCalculation file (st, log) =
    (Ok tt,
     ({| simulationMethod := simulationMethod st;
         instruments := instruments st;
         varResults := Some results;
         isCalculating := false |},
      log ++ [CallGetHistoricalData (inst :: active)]
          ++ [CallCalculateVaR (inst :: active) data (simulationMethod st)])).
Proof.
  intros Hactive Hdata Hengine.
  unfold Page.runCalculation, Page.getHistoricalDataOnClient,
    Page.callCalculateVaR. run_handler.
  rewrite Hactive. cbn [length Nat.eqb]. rewrite Hdata. cbn [fst snd].
  rewrite list_to_map_to_list, Hengine. cbn [fst snd].
  by rewrite <- app_assoc.
Qed.

Lemma handle_NoDup a (st : PageState) (log : list Effect) :
  NoDup (symbol <$> instruments st) ->
  NoDup (symbol <$> after (handle (instruments st) a) st log).
Proof.
  intros Hnd. destruct a as [uuid ni|id0|id0|method|file]; cbn [Page.handle].
  - by apply addInstrument_NoDup.
  - by apply filter_symbols_NoDup.
  - unfold Page.toggleInstrument. run_handler. cbn.
    by rewrite toggle_symbols.
  - done.
  - by rewrite runCalculation_instruments.
Qed.

(** C8.  When no instrument of the list is flagged [included],
    [runCalculation] sets the VaR result to [null], resets the
    calculating flag and returns; the log of effects is the one it
    started with, so neither the provider nor [calculateVaR] is
    called. *)
Theorem runCalculation_without_active_instruments file
    (st : PageState) (log : list Effect) :
  List.filter included (instruments st) = [] ->
  runCalculation file (st, log) =
    (Ok tt,
     ({| simulationMethod := simulationMethod st;
         instruments := instruments st;
         varResults := None;
         isCalculating := false |}, log)) /\
  forall insts returns method,
    CallCalculateVaR insts returns method
      ∈ snd (snd (runCalculation file (st, log))) ->
    CallCalculateVaR insts returns method ∈ log.
Proof.
  intros Hnone.
  assert (runCalculation file (st, log) =
    (Ok tt,
     ({| simulationMethod := simulationMethod st;
         instruments := instruments st;
         varResults := None;
         isCalculating := false |}, log))) as Hrun.
  { unfold Page.runCalculation. run_handler. by rewrite Hnone. }
  split; [done|]. by rewrite Hrun.
Qed.

(** X19.  When the page is rendered anew after every action, so that
    each handler called belongs to the render of the current state, no
    two instruments ever have the same symbol: [addInstrument] refuses a
    symbol that its render shows, and what [addInstrument] on the
    current render, [removeInstrument] and [toggleInstrument] leave
    behind has pairwise distinct symbols. *)
Theorem symbols_distinct_on_current_renders (st : PageState) :
  reachable st ->
  NoDup (symbol <$> instruments st) /\
  (forall log rendered uuid (instrument : NewInstrument),
     new_symbol instrument ∈ symbol <$> rendered ->
     after (addInstrument rendered uuid instrument) st log
       = instruments st) /\
  (forall log uuid (instrument : NewInstrument),
     NoDup (symbol <$>
              after (addInstrument (instruments st) uuid instrument)
                st log)) /\
  (forall log id0,
     NoDup (symbol <$> after (removeInstrument id0) st log)) /\
  (forall log id0,
     NoDup (symbol <$> after (toggleInstrument id0) st log)).
Proof.
  intros Hreach.
  assert (NoDup (symbol <$> instruments st)) as Hnd.
  { induction Hreach as [|a st log _ IH]; [constructor|].
    by apply handle_NoDup. }
  split_and!; [done| | | |].
  - intros log rendered uuid ni Hin. by rewrite addInstrument_existing.
  - intros log uuid ni. by apply (handle_NoDup (Add uuid ni)).
  - intros log id0. by apply (handle_NoDup (Remove id0)).
  - intros log id0. by apply (handle_NoDup (Toggle id0)).
Qed.
End PageProperties.

(** ** The page on sample states *)

Section PageSamples.
Import JS Page Sample.

Lemma runCalculation_without_active_instruments_witness :
  runCalculation Date_parse_iso flatEngine
    (Readable (fileOf header threeDays)) (nothingActive, []) =
    (Ok tt,
     ({| simulationMethod := "historical";
         instruments := [instrumentB];
         varResults := None;
         isCalculating := false |}, [])) /\
  forall insts returns method,
    CallCalculateVaR insts returns method
      ∈ snd (snd (runCalculation Date_parse_iso flatEngine
                    (Readable (fileOf header threeDays))
                    (nothingActive, []))) ->
    CallCalculateVaR insts returns method ∈ [].
Proof.
  apply (runCalculation_without_active_instruments Date_parse_iso
           flatEngine (Readable (fileOf header threeDays))
           nothingActive []).
  reflexivity.
Defined.

Lemma symbols_distinct_on_current_renders_witness :
  reachable Date_parse_iso flatEngine afterAddA /\
  NoDup (symbol <$> instruments afterAddA) /\
  instruments
    (fst (snd (addInstrument (Fault := string) (instruments afterAddA)
                 "id-2" newA (afterAddA, []))))
    = instruments afterAddA.
Proof.
  assert (reachable Date_parse_iso flatEngine afterAddA) as Hreach.
  { apply (reachable_handle Date_parse_iso flatEngine
             (Add "id-1" newA) initial []).
    apply reachable_initial. }
  destruct (symbols_distinct_on_current_renders Date_parse_iso flatEngine
              afterAddA Hreach) as (Hnd & Hadd & _).
  split_and!; [done..|].
  apply Hadd. vm_compute. apply list_elem_of_here.
Defined.

(** C9 fails on the code.  [addInstrument] looks for the symbol in the
    list of the render it belongs to and appends to the list as it is
    when the update runs.  Called twice for the symbol [A] from the
    render of the empty list, it finds no [A] either time and appends
    both: the list then holds [A] twice.  Called from the render that
    shows the first [A], it refuses the second. *)
Theorem same_render_adds_duplicate_symbol :
  symbol <$> instruments afterAddA = ["A"] /\
  symbol <$> instruments afterAddAA = ["A"; "A"] /\
  ~ NoDup (symbol <$> instruments afterAddAA) /\
  instruments
    (fst (snd (addInstrument (Fault := string) (instruments afterAddA)
                 "id-2" newA (afterAddA, []))))
    = instruments afterAddA.
Proof.
  split_and!; [reflexivity|reflexivity| |reflexivity].
  change (symbol <$> instruments afterAddAA) with ["A"; "A"].
  intros [Hnin _]%NoDup_cons. apply Hnin. left.
Qed.
End PageSamples.

(** ** Further properties of the parser *)

Section SortedInput.
Import JS.
Context {A : Type} (comparefn : A -> A -> sign).

Lemma insert_last x (l : list A) :
  Forall (fun y => before comparefn x y = false) l ->
  insert comparefn x l = l ++ [x].
Proof.
  induction 1 as [|y l Hy _ IH]; simpl; [done|]. by rewrite Hy, IH.
Qed.

Lemma sorted_weaken (R1 R2 : A -> A -> Prop) (l : list A) :
  (forall a b, R1 a b -> R2 a b) ->
  StronglySorted R1 l -> StronglySorted R2 l.
Proof.
  intros Himpl. induction 1 as [|a l _ IH Hall]; constructor; [done|].
  eapply Forall_impl; [exact Hall|]. intros b. apply Himpl.
Qed.

Lemma sorted_app_head R (acc : list A) x l :
  StronglySorted R (acc ++ x :: l) -> Forall (fun a => R a x) acc.
Proof.
  induction acc as [|a acc IH]; simpl; intros Hs; [constructor|].
  inversion Hs as [|? ? Hs' Hall]; subst. constructor; [|by apply IH].
  apply Forall_app in Hall as [_ Hall]. by inversion Hall.
Qed.

(** An array in which no element comes before an earlier one is left as
    it is. *)
Lemma sort_in_order (l : list A) :
  StronglySorted (fun a b => before comparefn b a = false) l ->
  sort comparefn l = l.
Proof.
  unfold sort.
  enough (forall acc,
            StronglySorted (fun a b => before comparefn b a = false) (acc ++ l) ->
            fold_left (fun sorted x => insert comparefn x sorted) l acc
              = acc ++ l) as H by (intros Hs; by apply (H [])).
  induction l as [|x l IH]; intros acc Hs; simpl.
  - by rewrite app_nil_r.
  - rewrite insert_last by (by apply sorted_app_head in Hs).
    rewrite IH; rewrite <- app_assoc; done.
Qed.
End SortedInput.

Section ParserProperties.
Import JS Provider.
Variable Date_parse : string -> Date.

Lemma parseRow_complete row :
  ~ missingField row ->
  exists s r, parseRow Date_parse row = Some (s, r).
Proof.
  unfold missingField, parseRow.
  destruct (split COMMA row) as [|[|c0 d] [|[|c1 sy] [|[|c2 p] rest]]];
    cbn; try done.
  intros _. by eexists _, _.
Qed.

Lemma parseRow_namesSymbol row s :
  namesSymbol s row <-> exists r, parseRow Date_parse row = Some (s, r).
Proof.
  split.
  - intros [Hc Hs]. destruct (parseRow_complete row Hc) as (s' & r & Hrow).
    exists r. rewrite Hrow. apply parseRow_symbol in Hrow. congruence.
  - intros [r Hrow]. split.
    + intros Hm. by rewrite (parseRow_missing Date_parse row Hm) in Hrow.
    + by apply parseRow_symbol in Hrow.
Qed.

Lemma length_observations s rows :
  length (observations Date_parse s rows)
    = length (filter (namesSymbol s) rows).
Proof.
  induction rows as [|row rows IH]; [done|].
  rewrite observations_cons, filter_cons.
  destruct (decide (namesSymbol s row)) as [Hn|Hn].
  - apply parseRow_namesSymbol in Hn as [r ->].
    rewrite decide_True by done. simpl. by rewrite IH.
  - destruct (parseRow Date_parse row) as [[s' r]|] eqn:Hrow; [|done].
    destruct (decide (s' = s)) as [->|_]; [|done].
    exfalso. apply Hn, parseRow_namesSymbol. by exists r.
Qed.

Lemma observations_other s before row after :
  split COMMA row !! 1%nat <> Some s ->
  observations Date_parse s (before ++ row :: after)
    = observations Date_parse s (before ++ after).
Proof.
  intros Hne. unfold observations. rewrite !omap_app. f_equal. simpl.
  destruct (parseRow Date_parse row) as [[s' r]|] eqn:Hrow; [|done].
  apply parseRow_symbol in Hrow.
  destruct (decide (s' = s)) as [->|_]; [done|done].
Qed.

(** X1.  Whatever the order of the rows, the history the parser keeps
    for a symbol is in chronological order as soon as its records have
    valid dates. *)
Theorem parsed_history_is_chronological (fileContent : string)
    (data : gmap string (list PriceRecord)) (s : string)
    (prices : list PriceRecord) :
  parseCsvData Date_parse (Readable fileContent) = Ok data ->
  data !! s = Some prices ->
  Forall validDate prices ->
  StronglySorted notAfter prices.
Proof.
  intros Hdata Hs Hv. rewrite (parsed_lookup _ _ _ s Hdata) in Hs.
  destruct (observations _ _ _) as [|r obs]; [done|].
  injection Hs as <-. apply sort_byDate_sorted.
  by rewrite <- (sort_Permutation byDate).
Qed.

(** X2.  The parsed map has an entry for a symbol exactly when some data
    row with its three fields names it, and no entry is an empty
    history. *)
Theorem parsed_symbols_come_from_complete_rows (fileContent : string)
    (data : gmap string (list PriceRecord)) (s : string) :
  parseCsvData Date_parse (Readable fileContent) = Ok data ->
  (is_Some (data !! s) <->
   exists row, row ∈ drop 1 (split LF fileContent) /\ namesSymbol s row) /\
  data !! s <> Some [].
Proof.
  intros Hdata. rewrite (parsed_lookup _ _ _ s Hdata).
  pose proof (length_observations s (drop 1 (split LF fileContent))) as Hlen.
  destruct (observations _ _ _) as [|r obs]; simpl in Hlen.
  - split_and!; [|done].
    split; [by intros [? ?]|]. intros (row & Hin & Hn). exfalso.
    assert (row ∈ filter (namesSymbol s) (drop 1 (split LF fileContent)))
      as Hf by (by apply list_elem_of_filter).
    destruct (filter _ _); [by apply elem_of_nil in Hf|done].
  - split_and!.
    + split; [|by eexists]. intros _.
      destruct (filter (namesSymbol s) (drop 1 (split LF fileContent)))
        as [|row rows'] eqn:Hf; [done|].
      assert (row ∈ filter (namesSymbol s) (drop 1 (split LF fileContent)))
        as [Hn Hin]%list_elem_of_filter by (rewrite Hf; left).
      by exists row.
    + intros [= Hnil].
      apply (f_equal length) in Hnil. rewrite length_sort in Hnil. done.
Qed.

(** X3.  When the rows of a symbol already stand in chronological order
    in the source, rows of equal date among them, the parser keeps them
    in exactly that order. *)
Theorem chronological_rows_keep_their_order (fileContent : string)
    (data : gmap string (list PriceRecord)) (s : string)
    (prices : list PriceRecord) :
  parseCsvData Date_parse (Readable fileContent) = Ok data ->
  data !! s = Some prices ->
  StronglySorted notAfter
    (observations Date_parse s (drop 1 (split LF fileContent))) ->
  prices = observations Date_parse s (drop 1 (split LF fileContent)).
Proof.
  intros Hdata Hs Hsorted. rewrite (parsed_lookup _ _ _ s Hdata) in Hs.
  destruct (observations _ _ _) as [|r obs]; [done|].
  injection Hs as <-. apply sort_in_order.
  eapply sorted_weaken; [|exact Hsorted].
  intros a b (ta & tb & Ha & Hb & Hle).
  rewrite (before_byDate b a tb ta Hb Ha). case_bool_decide; [lia|done].
Qed.

(** X4.  The first line of the source is never parsed: two sources that
    differ in their first line only, be it a header or a data row, are
    parsed to the same map. *)
Theorem first_line_is_never_parsed (line1 line1' : string)
    (rows : list string) :
  contains LF line1 = false ->
  contains LF line1' = false ->
  Forall (fun r => contains LF r = false) rows ->
  parseCsvData Date_parse (Readable (fileOf line1 rows)) =
  parseCsvData Date_parse (Readable (fileOf line1' rows)).
Proof.
  intros H1 H1' Hrows.
  by rewrite !parseCsvData_Readable, !rows_of_file.
Qed.
End ParserProperties.

Section ColumnProperties.
Import JS Provider.
Variable Date_parse : string -> Date.

Lemma split_append_any sep s rest :
  split sep (s +:+ String sep rest) = split sep s ++ split sep rest.
Proof.
  induction s as [|c s IH]; simpl.
  - by rewrite Ascii.eqb_refl.
  - rewrite IH. destruct (Ascii.eqb c sep); [done|].
    pose proof (split_nonempty sep s) as Hne.
    by destruct (split sep s).
Qed.

Lemma contains_append c s1 s2 :
  contains c (s1 +:+ s2) = contains c s1 || contains c s2.
Proof.
  induction s1 as [|c' s1 IH]; simpl; [done|].
  by rewrite IH, orb_assoc.
Qed.

Lemma parseRow_further_columns row more :
  is_Some (split COMMA row !! 2%nat) ->
  parseRow Date_parse (row +:+ String COMMA more) = parseRow Date_parse row.
Proof.
  intros [f2 Hf2]. unfold parseRow. rewrite split_append_any.
  destruct (split COMMA row) as [|f0 [|f1 [|f2' rest]]]; try done.
Qed.

(** X5.  Only the first three fields of a row are read: a data row with
    three fields and the same row with further columns behind them are
    parsed alike. *)
Theorem further_columns_are_ignored (header : string)
    (before : list string) (row more : string) (after : list string) :
  contains LF header = false ->
  Forall (fun r => contains LF r = false) (before ++ row :: after) ->
  contains LF more = false ->
  is_Some (split COMMA row !! 2%nat) ->
  parseCsvData Date_parse
    (Readable (fileOf header (before ++ (row +:+ String COMMA more) :: after)))
  = parseCsvData Date_parse
      (Readable (fileOf header (before ++ row :: after))).
Proof.
  intros Hh Hrows Hmore Hfields.
  assert (Forall (fun r => contains LF r = false)
            (before ++ (row +:+ String COMMA more) :: after)) as Hrows'.
  { apply Forall_app in Hrows as [Hb Ha]. apply Forall_app. split; [done|].
    inversion Ha as [|? ? Hrow Ha']; subst. constructor; [|done].
    rewrite contains_append. simpl. by rewrite Hrow, Hmore. }
  rewrite !parseCsvData_Readable, !rows_of_file by done.
  rewrite !fold_left_app. simpl.
  by rewrite !(processRow_parseRow Date_parse _ _), parseRow_further_columns.
Qed.
End ColumnProperties.

Section SeriesProperties.
Import JS Provider.
Variable Date_parse : string -> Date.

Lemma seriesFor_lookup data1 data2 s :
  data1 !! s = data2 !! s -> seriesFor data1 s = seriesFor data2 s.
Proof. unfold seriesFor. by intros ->. Qed.

Lemma returned_series {Extra} file (instruments : list (Instrument Extra))
    data returns s :
  parseCsvData Date_parse file = Ok data ->
  getHistoricalData Date_parse file instruments = Ok returns ->
  returns !! s =
    if decide (s ∈ symbol <$> instruments)
    then Some (seriesFor data s) else None.
Proof.
  intros Hdata Hret.
  destruct (getHistoricalData_lookup Date_parse file instruments)
    as (data' & returns' & Hdata' & Hret' & Hlookup).
  rewrite Hdata in Hdata'. injection Hdata' as <-.
  rewrite Hret in Hret'. injection Hret' as <-. apply Hlookup.
Qed.

(** X6.  The length of a return series can be read off the source: it
    is the number of data rows with three fields that name the symbol,
    less one (and zero when there is no such row). *)
Theorem series_length_from_rows {Extra} (fileContent : string)
    (instruments : list (Instrument Extra)) (instrument : Instrument Extra)
    (returns : gmap string (list number)) :
  instrument ∈ instruments ->
  getHistoricalData Date_parse (Readable fileContent) instruments
    = Ok returns ->
  exists series,
    returns !! symbol instrument = Some series /\
    length series =
      (length (filter (namesSymbol (symbol instrument))
                 (drop 1 (split LF fileContent))) - 1)%nat.
Proof.
  intros Hin Hret.
  destruct (parseCsvData_Ok Date_parse (Readable fileContent))
    as [data Hdata].
  exists (seriesFor data (symbol instrument)). split.
  - rewrite (returned_series _ _ _ _ _ Hdata Hret), decide_True; [done|].
    by apply list_elem_of_fmap_2.
  - rewrite length_seriesFor, (parsed_lookup _ _ _ _ Hdata).
    rewrite <- (length_observations Date_parse).
    destruct (observations _ _ _) as [|r obs]; [done|].
    simpl default. by rewrite length_sort.
Qed.

(** X7.  The series of a symbol depends on the rows of that symbol
    only: a row that names another symbol, or none, can be taken out of
    the source without changing it. *)
Theorem rows_of_other_symbols_do_not_matter {Extra} (header : string)
    (before : list string) (row : string) (after : list string)
    (instruments : list (Instrument Extra))
    (returns returns' : gmap string (list number)) (s : string) :
  contains LF header = false ->
  Forall (fun r => contains LF r = false) (before ++ row :: after) ->
  split COMMA row !! 1%nat <> Some s ->
  getHistoricalData Date_parse
    (Readable (fileOf header (before ++ row :: after))) instruments
    = Ok returns ->
  getHistoricalData Date_parse
    (Readable (fileOf header (before ++ after))) instruments
    = Ok returns' ->
  returns !! s = returns' !! s.
Proof.
  intros Hh Hrows Hne Hret Hret'.
  assert (Forall (fun r => contains LF r = false) (before ++ after)) as Hrows'.
  { apply Forall_app in Hrows as [Hb Ha]. apply Forall_app. split; [done|].
    by inversion Ha. }
  destruct (parseCsvData_Ok Date_parse
              (Readable (fileOf header (before ++ row :: after))))
    as [data Hdata].
  destruct (parseCsvData_Ok Date_parse
              (Readable (fileOf header (before ++ after))))
    as [data' Hdata'].
  rewrite (returned_series _ _ _ _ _ Hdata Hret).
  rewrite (returned_series _ _ _ _ _ Hdata' Hret').
  case_decide; [|done]. f_equal. apply seriesFor_lookup.
  rewrite (parsed_lookup _ _ _ _ Hdata), (parsed_lookup _ _ _ _ Hdata').
  by rewrite !rows_of_file, observations_other.
Qed.

(** X8.  What the mapping holds under a symbol depends on the set of
    symbols asked for and on nothing else of the instruments: whatever
    their order, their repetitions, their ids and their [included]
    flags, looking a symbol up gives the same.  (The order in which the
    mapping lists its keys is not part of this.) *)
Theorem entries_depend_on_symbols_only {Extra Extra'} (file : FileState)
    (instruments : list (Instrument Extra))
    (instruments' : list (Instrument Extra'))
    (returns returns' : gmap string (list number)) (s : string) :
  (forall s, s ∈ symbol <$> instruments <-> s ∈ symbol <$> instruments') ->
  getHistoricalData Date_parse file instruments = Ok returns ->
  getHistoricalData Date_parse file instruments' = Ok returns' ->
  returns !! s = returns' !! s.
Proof.
  intros Hsame Hret Hret'.
  destruct (parseCsvData_Ok Date_parse file) as [data Hdata].
  rewrite (returned_series _ _ _ _ _ Hdata Hret).
  rewrite (returned_series _ _ _ _ _ Hdata Hret').
  destruct (decide (s ∈ symbol <$> instruments)) as [Hin|Hnin].
  - by rewrite decide_True by (by apply Hsame).
  - by rewrite decide_False by (by rewrite <- Hsame).
Qed.
End SeriesProperties.

(** ** Further properties of the returns *)

Section ReturnProperties.
Import JS Provider.

Lemma calculateDailyReturns_cons a b l :
  calculateDailyReturns (a :: b :: l) =
    dailyReturn (price a) (price b) :: calculateDailyReturns (b :: l).
Proof.
  apply (list_eq_same_length _ _ (S (length l))).
  - simpl. rewrite length_calculateDailyReturns. simpl. lia.
  - rewrite length_calculateDailyReturns. simpl. lia.
  - intros i x y Hi Hx Hy. destruct i as [|j].
    + rewrite (lookup_calculateDailyReturns (a :: b :: l) 0 a b) in Hx by done.
      simpl in Hy. congruence.
    + simpl in Hy.
      destruct (lookup_lt_is_Some_2 (b :: l) j) as [y' Hy']; [simpl; lia|].
      destruct (lookup_lt_is_Some_2 (b :: l) (S j)) as [t' Ht']; [simpl; lia|].
      rewrite (lookup_calculateDailyReturns (b :: l) j y' t') in Hy by done.
      rewrite (lookup_calculateDailyReturns (a :: b :: l) (S j) y' t') in Hx
        by done.
      congruence.
Qed.

(** X9.  A price history can be cut at any day: the returns of the
    whole history are the returns up to that day followed by the returns
    from that day on. *)
Theorem returns_split_at_a_day (earlier : list PriceRecord)
    (day : PriceRecord) (later : list PriceRecord) :
  calculateDailyReturns (earlier ++ day :: later) =
    calculateDailyReturns (earlier ++ [day])
      ++ calculateDailyReturns (day :: later).
Proof.
  induction earlier as [|a [|b earlier] IH].
  - done.
  - simpl app. by rewrite calculateDailyReturns_cons.
  - change ((a :: b :: earlier) ++ day :: later)
      with (a :: b :: (earlier ++ day :: later)).
    change ((a :: b :: earlier) ++ [day])
      with (a :: b :: (earlier ++ [day])).
    rewrite !calculateDailyReturns_cons. simpl. f_equal. apply IH.
Qed.

Lemma Prim2SF_nan x : is_nan x = true -> Prim2SF x = S754_nan.
Proof. intros H. unfold Prim2SF. by rewrite H. Qed.

Lemma is_nan_Prim2SF x : Prim2SF x = S754_nan -> is_nan x = true.
Proof.
  unfold Prim2SF. destruct (is_nan x); [done|].
  destruct (is_zero x); [done|]. destruct (is_infinity x); [done|].
  destruct (Z.frexp x) as [r e].
  destruct (shr_fexp prec emax _ _ _) as [m e'].
  by destruct (shr_m m).
Qed.

Lemma sub_nan x y :
  is_nan x = true \/ is_nan y = true -> is_nan (x - y)%float = true.
Proof.
  intros H. apply is_nan_Prim2SF. rewrite sub_spec.
  destruct H as [H|H]; rewrite (Prim2SF_nan _ H); [done|].
  by destruct (Prim2SF x).
Qed.

Lemma div_nan x y :
  is_nan x = true \/ is_nan y = true -> is_nan (x / y)%float = true.
Proof.
  intros H. apply is_nan_Prim2SF. rewrite div_spec.
  destruct H as [H|H]; rewrite (Prim2SF_nan _ H); [done|].
  by destruct (Prim2SF x).
Qed.

Lemma strict_eq_nan x y : is_nan x = true -> strict_eq x y = false.
Proof.
  intros H. unfold strict_eq.
  by rewrite FloatAxioms.eqb_spec, (Prim2SF_nan _ H).
Qed.

(** X10.  A price that is [NaN] spoils the returns on both sides of it:
    the return of the day after it is [NaN], and so is the return of its
    own day unless the price of the day before is zero, in which case
    that return is [0]. *)
Theorem nan_price_spoils_adjacent_returns (prices : list PriceRecord)
    (k : nat) (yesterday today : PriceRecord) :
  prices !! k = Some yesterday ->
  prices !! S k = Some today ->
  exists r,
    calculateDailyReturns prices !! k = Some r /\
    (isNaN (price yesterday) = true -> isNaN r = true) /\
    (isNaN (price today) = true ->
     if strict_eq (price yesterday) 0%float then r = 0%float
     else isNaN r = true).
Proof.
  intros Hy Ht. exists (dailyReturn (price yesterday) (price today)).
  split; [by apply lookup_calculateDailyReturns|].
  unfold dailyReturn, isNaN. split.
  - intros Hnan. rewrite (strict_eq_nan _ _ Hnan).
    apply div_nan. by right.
  - intros Hnan. destruct (strict_eq (price yesterday) 0%float); [done|].
    apply div_nan. left. apply sub_nan. by left.
Qed.
End ReturnProperties.

(** ** Further properties of the page *)

Section CalculationProperties.
Import JS Page.
Context {Extra VaRResult Fault : Type}.
Variable Date_parse : string -> Date.
Variable calculateVaR :
  list (Instrument Extra) -> gmap string (list number) -> string ->
  result Fault VaRResult.

Abbreviation PageState := (@PageState Extra VaRResult).
Abbreviation Effect := (@Effect Extra).
Abbreviation runCalculation :=
  (@runCalculation Extra VaRResult Fault Date_parse calculateVaR).

(** The result of [runCalculation], case by case. *)
Lemma runCalculation_outcome file (st : PageState) (log : list Effect) :
  runCalculation file (st, log) =
    let active := List.filter included (instruments st) in
    let finished r :=
      {| simulationMethod := simulationMethod st;
         instruments := instruments st;
         varResults := r;
         isCalculating := false |} in
    match active with
    | [] => (Ok tt, (finished None, log))
    | _ :: _ =>
        match Provider.getHistoricalData Date_parse file active with
        | Ok data =>
            match calculateVaR active data (simulationMethod st) with
            | Ok results =>
                (Ok tt,
                 (finished (Some results),
                  log ++ [CallGetHistoricalData active;
                          CallCalculateVaR active data (simulationMethod st)]))
            | Throw _ =>
                (Ok tt,
                 (finished (varResults st),
                  log ++ [CallGetHistoricalData active;
                          CallCalculateVaR active data (simulationMethod st);
                          ConsoleError; Toast "Calculation Error"]))
            end
        | Throw _ =>
            (Ok tt,
             (finished (varResults st),
              log ++ [CallGetHistoricalData active;
                      ConsoleError; Toast "Calculation Error"]))
        end
    end.
Proof.
  unfold Page.runCalculation, Page.getHistoricalDataOnClient,
    Page.callCalculateVaR. run_handler. cbv zeta.
  destruct (List.filter included (instruments st)) as [|inst active];
    [done|].
  cbn [length Nat.eqb].
  destruct (Provider.getHistoricalData _ _ _) as [data|e]; cbn [fst snd].
  - rewrite list_to_map_to_list.
    destruct (calculateVaR _ _ _); cbn [fst snd];
      by rewrite <- ?app_assoc.
  - by rewrite <- ?app_assoc.
Qed.

Lemma dom_getHistoricalData file (insts : list (Instrument Extra)) returns :
  Provider.getHistoricalData Date_parse file insts = Ok returns ->
  dom returns = list_to_set (symbol <$> insts).
Proof.
  intros Hret.
  destruct (getHistoricalData_lookup Date_parse file insts)
    as (data & returns' & _ & Hret' & Hlookup).
  rewrite Hret in Hret'. injection Hret' as <-.
  apply set_eq. intros s.
  rewrite elem_of_dom, Hlookup, elem_of_list_to_set.
  case_decide as H; split; [done|by eexists|by intros [? ?]|done].
Qed.

(** X11.  [runCalculation] always returns: whatever the file and the
    engine do, nothing is thrown to the caller, the calculating flag is
    off at the end, the instruments and the method are as before, and
    the effects already logged stay. *)
Theorem runCalculation_always_returns file (st : PageState)
    (log : list Effect) :
  exists st' new,
    runCalculation file (st, log) = (Ok tt, (st', log ++ new)) /\
    isCalculating st' = false /\
    instruments st' = instruments st /\
    simulationMethod st' = simulationMethod st.
Proof.
  rewrite runCalculation_outcome. cbv zeta.
  destruct (List.filter included (instruments st)) as [|inst active].
  - eexists _, []. by rewrite app_nil_r.
  - destruct (Provider.getHistoricalData _ _ _) as [data|e];
      [destruct (calculateVaR _ _ _)|]; by eexists _, _.
Qed.

(** X12.  When the engine throws, the error stops in [runCalculation]:
    it is logged, a toast is shown, and the VaR result is left as it
    was, a result of an earlier calculation included. *)
Theorem engine_fault_keeps_previous_result file (st : PageState)
    (log : list Effect) inst active data fault :
  List.filter included (instruments st) = inst :: active ->
  Provider.getHistoricalData Date_parse file (inst :: active) = Ok data ->
  calculateVaR (inst :: active) data (simulationMethod st) = Throw fault ->
  runCalculation file (st, log) =
    (Ok tt,
     ({| simulationMethod := simulationMethod st;
         instruments := instruments st;
         varResults := varResults st;
         isCalculating := false |},
      log ++ [CallGetHistoricalData (inst :: active);
              CallCalculateVaR (inst :: active) data (simulationMethod st);
              ConsoleError; Toast "Calculation Error"])).
Proof.
  intros Hactive Hdata Hengine.
  rewrite runCalculation_outcome. cbv zeta.
  by rewrite Hactive, Hdata, Hengine.
Qed.

(** X13.  The engine is only ever called on the instruments flagged
    [included], of which there is at least one, on the mapping the
    provider returned for exactly these instruments, whose keys are
    their symbols, and with the method selected on the page. *)
Theorem engine_is_called_on_active_instruments file (st : PageState)
    (log : list Effect) :
  exists st' new,
    runCalculation file (st, log) = (Ok tt, (st', log ++ new)) /\
    forall insts returns method,
      CallCalculateVaR insts returns method ∈ new ->
      insts = List.filter included (instruments st) /\
      insts <> [] /\
      Forall (fun inst => included inst = true) insts /\
      Provider.getHistoricalData Date_parse file insts = Ok returns /\
      dom returns = list_to_set (symbol <$> insts) /\
      method = simulationMethod st.
Proof.
  rewrite runCalculation_outcome. cbv zeta.
  destruct (List.filter included (instruments st)) as [|inst active] eqn:Hf.
  { eexists _, []. rewrite app_nil_r. split; [done|].
    intros ??? Hin. by apply elem_of_nil in Hin. }
  assert (Forall (fun i => included i = true) (inst :: active)) as Hinc.
  { rewrite <- Hf. apply Forall_forall. intros i Hi.
    apply list_elem_of_In, List.filter_In in Hi. tauto. }
  destruct (Provider.getHistoricalData _ _ _) as [data|e] eqn:Hdata.
  - pose proof (dom_getHistoricalData _ _ _ Hdata) as Hdom.
    destruct (calculateVaR _ _ _); eexists _, _; (split; [done|]);
      intros insts returns method Hin;
      repeat (apply elem_of_cons in Hin as [Hin|Hin]; [try done|]);
      try (by apply elem_of_nil in Hin);
      injection Hin as -> -> ->; done.
  - eexists _, _. split; [done|]. intros insts returns method Hin.
    repeat (apply elem_of_cons in Hin as [Hin|Hin]; [done|]).
    by apply elem_of_nil in Hin.
Qed.

(** X14.  With an included instrument and an engine that returns, the
    provider is asked first, the engine is called once on what the
    provider returned, and its result becomes the VaR result of the
    page. *)
Theorem successful_calculation_stores_result file (st : PageState)
    (log : list Effect) inst active data results :
  List.filter included (instruments st) = inst :: active ->
  Provider.getHistoricalData Date_parse file (inst :: active) = Ok data ->
  calculateVaR (inst :: active) data (simulationMethod st) = Ok results ->
  runCalculation file (st, log) =
    (Ok tt,
     ({| simulationMethod := simulationMethod st;
         instruments := instruments st;
         varResults := Some results;
         isCalculating := false |},
      log ++ [CallGetHistoricalData (inst :: active);
              CallCalculateVaR (inst :: active) data (simulationMethod st)])).
Proof.
  intros Hactive Hdata Hengine.
  rewrite runCalculation_outcome. cbv zeta.
  by rewrite Hactive, Hdata, Hengine.
Qed.
End CalculationProperties.

Section InstrumentListProperties.
Import JS Page.
Context {Extra VaRResult Fault : Type}.

Abbreviation PageState := (@PageState Extra VaRResult).
Abbreviation Effect := (@Effect Extra).
Abbreviation NewInstrument := (@NewInstrument Extra).
Abbreviation addInstrument := (@addInstrument Extra VaRResult Fault).
Abbreviation removeInstrument := (@removeInstrument Extra VaRResult Fault).
Abbreviation toggleInstrument := (@toggleInstrument Extra VaRResult Fault).

(** The page state and the instrument list a handler leaves behind. *)
Abbreviation stateAfter m st log := (fst (snd (m (st, log)))).
Abbreviation after m st log := (instruments (stateAfter m st log)).

Lemma filter_unknown_id id0 (l : list (Instrument Extra)) :
  id0 ∉ id <$> l ->
  List.filter (fun inst => negb (String.eqb (id inst) id0)) l = l.
Proof.
  induction l as [|inst l IH]; [done|].
  rewrite fmap_cons, not_elem_of_cons. intros [Hne Hnin]. simpl.
  destruct (String.eqb_spec (id inst) id0) as [Heq|_]; [done|].
  simpl. by rewrite IH.
Qed.

(** X15.  [removeInstrument] takes out every instrument with the given
    id and nothing else, keeping the others in their order; for an id
    that no instrument has, the list stays as it is. *)
Theorem removeInstrument_by_id (st : PageState) (log : list Effect)
    (id0 : string) :
  (forall inst,
     inst ∈ after (removeInstrument id0) st log <->
     inst ∈ instruments st /\ id inst <> id0) /\
  after (removeInstrument id0) st log `sublist_of` instruments st /\
  (id0 ∉ id <$> instruments st ->
   after (removeInstrument id0) st log = instruments st).
Proof.
  unfold Page.removeInstrument. run_handler. split_and!.
  - intros inst. rewrite !list_elem_of_In, List.filter_In.
    destruct (String.eqb_spec (id inst) id0); simpl; intuition congruence.
  - induction (instruments st) as [|inst l IH]; simpl; [done|].
    destruct (negb _); [by apply sublist_skip|by apply sublist_cons].
  - apply filter_unknown_id.
Qed.

(** X16.  Toggling an instrument twice gives the list back. *)
Theorem toggleInstrument_twice (st : PageState) (log log' : list Effect)
    (id0 : string) :
  after (toggleInstrument id0)
    (stateAfter (toggleInstrument id0) st log) log'
  = instruments st.
Proof.
  unfold Page.toggleInstrument. run_handler.
  induction (instruments st) as [|inst l IH]; [done|].
  cbn [List.map]. rewrite IH. f_equal.
  destruct (String.eqb (id inst) id0) eqn:Heq; cbn [id]; rewrite Heq; [|done].
  destruct inst as [i s e inc]. cbn. by rewrite negb_involutive.
Qed.

(** X17.  Adding an instrument under an id that no instrument has, and
    removing that id again, gives the list back, whichever render the
    add handler belongs to and whether it appended or refused. *)
Theorem add_then_remove (st : PageState) (log log' : list Effect)
    (rendered : list (Instrument Extra)) (uuid : string)
    (instrument : NewInstrument) :
  uuid ∉ id <$> instruments st ->
  after (removeInstrument uuid)
    (stateAfter (addInstrument rendered uuid instrument) st log) log'
  = instruments st.
Proof.
  intros Hid.
  destruct (decide (new_symbol instrument ∈ symbol <$> rendered))
    as [Hin|Hnin].
  - rewrite addInstrument_existing by done.
    unfold Page.removeInstrument. run_handler.
    by apply filter_unknown_id.
  - assert (after (addInstrument rendered uuid instrument) st log =
              instruments st ++
                [{| id := uuid; symbol := new_symbol instrument;
                    extra := new_extra instrument; included := true |}])
      as Hadd by (by apply addInstrument_fresh).
    unfold Page.removeInstrument. run_handler.
    rewrite Hadd, List.filter_app, filter_unknown_id by done.
    simpl. by rewrite String.eqb_refl, app_nil_r.
Qed.

(** X18.  An instrument whose symbol the render of the handler does not
    show goes to the end of the list as it then is, switched on: the
    instruments the next calculation runs on are those of before,
    followed by the new one. *)
Theorem added_instrument_is_active (st : PageState) (log : list Effect)
    (rendered : list (Instrument Extra)) (uuid : string)
    (instrument : NewInstrument) :
  new_symbol instrument ∉ symbol <$> rendered ->
  List.filter included
    (after (addInstrument rendered uuid instrument) st log) =
    List.filter included (instruments st) ++
      [{| id := uuid; symbol := new_symbol instrument;
          extra := new_extra instrument; included := true |}].
Proof.
  intros Hsym.
  assert (after (addInstrument rendered uuid instrument) st log =
            instruments st ++
              [{| id := uuid; symbol := new_symbol instrument;
                  extra := new_extra instrument; included := true |}])
    as -> by (by apply addInstrument_fresh).
  by rewrite List.filter_app.
Qed.
End InstrumentListProperties.

(** ** The further properties on the sample sources *)

Section FurtherSamples.
Import JS Provider Page Sample.

Lemma reversed_threeDays_parsed :
  parseCsvData Date_parse_iso (Readable (fileOf header (rev threeDays))) =
    Ok (<["A" := threeDaysHistory]> ∅).
Proof. vm_compute. reflexivity. Qed.

Lemma sameDay_parsed :
  parseCsvData Date_parse_iso (Readable (fileOf header sameDay)) =
    Ok (<["A" := [day 19723 100; day 19723 200; day 19724 300]]> ∅).
Proof. vm_compute. reflexivity. Qed.

Lemma threeDays_series :
  getHistoricalData Date_parse_iso (Readable (fileOf header threeDays))
    [instrumentA] = Ok threeDaysSeries.
Proof. vm_compute. reflexivity. Qed.

Lemma sameDay_observations :
  observations Date_parse_iso "A" (drop 1 (split LF (fileOf header sameDay)))
  = [day 19723 100; day 19723 200; day 19724 300].
Proof. vm_compute. reflexivity. Qed.

Lemma parsed_history_is_chronological_witness :
  StronglySorted notAfter threeDaysHistory.
Proof.
  apply (parsed_history_is_chronological Date_parse_iso
           (fileOf header (rev threeDays)) (<["A" := threeDaysHistory]> ∅)
           "A" threeDaysHistory).
  - apply reversed_threeDays_parsed.
  - apply lookup_insert_eq.
  - repeat constructor; by eexists.
Defined.

Lemma parsed_symbols_come_from_complete_rows_witness :
  (is_Some ((<["A" := threeDaysHistory]> ∅ : gmap string (list PriceRecord))
              !! "B") <->
   exists row,
     row ∈ drop 1 (split LF (fileOf header threeDays)) /\
     namesSymbol "B" row) /\
  (<["A" := threeDaysHistory]> ∅ : gmap string (list PriceRecord)) !! "B"
    <> Some [].
Proof.
  apply (parsed_symbols_come_from_complete_rows Date_parse_iso
           (fileOf header threeDays) (<["A" := threeDaysHistory]> ∅) "B").
  vm_compute. reflexivity.
Defined.

Lemma series_length_from_rows_witness :
  exists series,
    threeDaysSeries !! symbol instrumentA = Some series /\
    length series =
      (length (filter (namesSymbol (symbol instrumentA))
                 (drop 1 (split LF (fileOf header threeDays)))) - 1)%nat.
Proof.
  apply (series_length_from_rows Date_parse_iso (fileOf header threeDays)
           [instrumentA] instrumentA threeDaysSeries).
  - apply list_elem_of_here.
  - apply threeDays_series.
Defined.

Lemma chronological_rows_keep_their_order_witness :
  [day 19723 100; day 19723 200; day 19724 300] =
    observations Date_parse_iso "A"
      (drop 1 (split LF (fileOf header sameDay))).
Proof.
  apply (chronological_rows_keep_their_order Date_parse_iso
           (fileOf header sameDay)
           (<["A" := [day 19723 100; day 19723 200; day 19724 300]]> ∅) "A").
  - apply sameDay_parsed.
  - apply lookup_insert_eq.
  - rewrite sameDay_observations.
    repeat (first [apply SSorted_nil | apply SSorted_cons
                  | apply List.Forall_nil | apply List.Forall_cons]);
      (eexists _, _; split_and!;
         [reflexivity|reflexivity|apply Z.leb_le; reflexivity]).
Defined.

Lemma first_line_is_never_parsed_witness :
  parseCsvData Date_parse_iso (Readable (fileOf header threeDays)) =
  parseCsvData Date_parse_iso
    (Readable (fileOf "2023-12-31,A,99" threeDays)).
Proof.
  apply (first_line_is_never_parsed Date_parse_iso header
           "2023-12-31,A,99" threeDays).
  - reflexivity.
  - reflexivity.
  - repeat constructor.
Defined.

Lemma further_columns_are_ignored_witness :
  parseCsvData Date_parse_iso
    (Readable (fileOf header
       (["2024-01-01,A,100"]
          ++ ("2024-01-02,A,105" +:+ String COMMA "close,USD")
          :: ["2024-01-03,A,98.7"])))
  = parseCsvData Date_parse_iso
      (Readable (fileOf header
         (["2024-01-01,A,100"] ++ "2024-01-02,A,105"
            :: ["2024-01-03,A,98.7"]))).
Proof.
  apply (further_columns_are_ignored Date_parse_iso header
           ["2024-01-01,A,100"] "2024-01-02,A,105" "close,USD"
           ["2024-01-03,A,98.7"]).
  - reflexivity.
  - repeat constructor.
  - reflexivity.
  - by eexists.
Defined.

Lemma rows_of_other_symbols_do_not_matter_witness :
  (<["B" := [((8 - 7) / 7)%float]]> threeDaysSeries
     : gmap string (list number)) !! "A"
  = (<["B" := []]> threeDaysSeries : gmap string (list number)) !! "A".
Proof.
  apply (rows_of_other_symbols_do_not_matter Date_parse_iso header
           ["2024-01-01,A,100"; "2024-01-01,B,7"] "2024-01-02,B,8"
           ["2024-01-02,A,105"; "2024-01-03,A,98.7"]
           [instrumentA; instrumentB]
           (<["B" := [((8 - 7) / 7)%float]]> threeDaysSeries)
           (<["B" := []]> threeDaysSeries) "A").
  - reflexivity.
  - repeat constructor.
  - discriminate.
  - vm_compute. reflexivity.
  - vm_compute. reflexivity.
Defined.

Lemma nan_price_spoils_adjacent_returns_witness :
  exists r,
    calculateDailyReturns [day 0 100; day 1 nan; day 2 5] !! 1%nat = Some r /\
    (isNaN (price (day 1 nan)) = true -> isNaN r = true) /\
    (isNaN (price (day 2 5)) = true ->
     if strict_eq (price (day 1 nan)) 0%float then r = 0%float
     else isNaN r = true).
Proof.
  apply (nan_price_spoils_adjacent_returns
           [day 0 100; day 1 nan; day 2 5] 1 (day 1 nan) (day 2 5)).
  - reflexivity.
  - reflexivity.
Defined.

Lemma entries_depend_on_symbols_only_witness :
  (<["B" := []]> threeDaysSeries : gmap string (list number)) !! "A"
  = (<["B" := []]> threeDaysSeries : gmap string (list number)) !! "A".
Proof.
  apply (entries_depend_on_symbols_only Date_parse_iso
           (Readable (fileOf header threeDays))
           [instrumentA; instrumentB]
           [instrumentB; instrumentA; instrumentB]
           (<["B" := []]> threeDaysSeries) (<["B" := []]> threeDaysSeries)
           "A").
  - intros s. cbn. rewrite !elem_of_cons. tauto.
  - vm_compute. reflexivity.
  - vm_compute. reflexivity.
Defined.

Lemma engine_fault_keeps_previous_result_witness :
  runCalculation Date_parse_iso flatEngine
    (Readable (fileOf header threeDays)) (pageWithA "monte-carlo", []) =
    (Ok tt,
     ({| simulationMethod := "monte-carlo";
         instruments := [instrumentA; instrumentB];
         varResults := Some 1.5%float;
         isCalculating := false |},
      [] ++ [CallGetHistoricalData [instrumentA];
             CallCalculateVaR [instrumentA] threeDaysSeries "monte-carlo";
             ConsoleError; Toast "Calculation Error"])).
Proof.
  apply (engine_fault_keeps_previous_result Date_parse_iso flatEngine
           (Readable (fileOf header threeDays)) (pageWithA "monte-carlo") []
           instrumentA [] threeDaysSeries "unknown method").
  - reflexivity.
  - apply threeDays_series.
  - reflexivity.
Defined.

Lemma successful_calculation_stores_result_witness :
  runCalculation Date_parse_iso flatEngine
    (Readable (fileOf header threeDays)) (pageWithA "historical", []) =
    (Ok tt,
     ({| simulationMethod := "historical";
         instruments := [instrumentA; instrumentB];
         varResults := Some 0%float;
         isCalculating := false |},
      [] ++ [CallGetHistoricalData [instrumentA];
             CallCalculateVaR [instrumentA] threeDaysSeries "historical"])).
Proof.
  apply (successful_calculation_stores_result Date_parse_iso flatEngine
           (Readable (fileOf header threeDays)) (pageWithA "historical") []
           instrumentA [] threeDaysSeries 0%float).
  - reflexivity.
  - apply threeDays_series.
  - reflexivity.
Defined.

Lemma add_then_remove_witness :
  instruments
    (fst (snd (removeInstrument (Fault := string) "id-9"
      (fst (snd (addInstrument (Fault := string) [] "id-9" newA
                   (afterAddA, []))), []))))
  = instruments afterAddA.
Proof.
  apply (add_then_remove (Fault := string) afterAddA [] [] [] "id-9" newA).
  cbn. rewrite elem_of_cons. intros [H|H]; [done|by apply elem_of_nil in H].
Defined.

Lemma added_instrument_is_active_witness :
  List.filter included
    (instruments
       (fst (snd (addInstrument (Fault := string) [] "id-9" newA
                    (afterAddA, [])))))
  = List.filter included (instruments afterAddA) ++
      [{| id := "id-9"; symbol := new_symbol newA;
          extra := new_extra newA; included := true |}].
Proof.
  apply (added_instrument_is_active (Fault := string) afterAddA [] []
           "id-9" newA).
  apply not_elem_of_nil.
Defined.
End FurtherSamples.
